(** * DHCP server detection: a model of provisioningserver/dhcp/detect.py

    The probe hand-builds a DHCP DISCOVER datagram, broadcasts it, and
    listens for OFFERs until a read times out.  Byte strings are lists of
    [byte]; text is [string]; the result set is a [gset string].  Python
    exceptions are values of [exception]; every function that can raise
    returns a [result].  Calls into the operating system (randint, ioctl,
    bind, sendto, recv) are answered by an [OS] record of oracles, and the
    calls made so far are counted in a [state] that is threaded through. *)

From Stdlib Require Import ZArith NArith List Ascii String DecimalString DecimalN Lia.
From Stdlib.Strings Require Import Byte.
From stdpp Require Import base gmap sets list strings.

Abbreviation bytes := (list byte).

(** Equality of bytes is decided by [Byte.eqb]. *)
#[global] Instance byte_eq_decision : EqDecision byte :=
  fun x y =>
    match Byte.eqb x y as b return Byte.eqb x y = b -> Decision (x = y) with
    | true => fun H => left (Byte.byte_dec_bl x y H)
    | false => fun H => right (Byte.eqb_false H)
    end eq_refl.

(** ** Python values and exceptions *)

(** [OSError] carries its [errno] attribute ([None] when the exception was
    built from a message only).  [IOError] is an alias of [OSError], and
    [socket.timeout] is a subclass of it.  The constructor
    [socket_timeout] is the exception the socket module raises when a
    read finds no data within the timeout set on the socket; its [errno]
    is [None]. *)
Inductive exception : Type :=
| OSError (errno : option Z)
| socket_timeout
| ValueError
| struct_error
| UnicodeEncodeError.

Inductive result (A : Type) : Type :=
| Return (a : A)
| Raise (e : exception).
Arguments Return {A} a.
Arguments Raise {A} e.

(** [isinstance(e, IOError)] *)
Definition is_IOError (e : exception) : bool :=
  match e with
  | OSError _ | socket_timeout => true
  | _ => false
  end.

(** [e.errno] of an [IOError] *)
Definition errno_of (e : exception) : option Z :=
  match e with
  | OSError n => n
  | _ => None
  end.

(** errno.EADDRNOTAVAIL, errno.ENODEV and errno.ETIMEDOUT (Linux values). *)
Definition EADDRNOTAVAIL : Z := 99.
Definition ENODEV : Z := 19.
Definition ETIMEDOUT : Z := 110.

(** [isinstance(e, socket.timeout)].  [socket.timeout] is the built-in
    [TimeoutError], and an [OSError] that a system call raises with errno
    ETIMEDOUT is created as a [TimeoutError] too: [except socket.timeout]
    catches both. *)
Definition is_socket_timeout (e : exception) : bool :=
  match e with
  | socket_timeout => true
  | OSError (Some n) => bool_decide (n = ETIMEDOUT)
  | _ => false
  end.

(** [data[i:j]] for literal bounds [0 <= i <= j]: Python clamps both
    bounds to the length and never raises. *)
Definition slice {A} (i j : nat) (l : list A) : list A := take (j - i) (drop i l).

(** [struct.pack(b'!B', n)]: one unsigned byte, [struct.error] out of range. *)
Definition struct_pack_B (n : Z) : result bytes :=
  if ((0 <=? n) && (n <=? 255))%Z then
    match Byte.of_N (Z.to_N n) with
    | Some b => Return [b]
    | None => Raise struct_error
    end
  else Raise struct_error.

(** [struct.pack(b'<n>s', b)]: truncated or zero-padded to [n] bytes. *)
Definition struct_pack_s (n : nat) (b : bytes) : bytes :=
  take n b ++ replicate (n - length b) x00.

(** Decimal text of a byte, as [inet_ntoa] prints each octet. *)
Definition decimal (b : byte) : string :=
  NilEmpty.string_of_uint (N.to_uint (Byte.to_N b)).

(** [socket.inet_ntoa(packed)]: dotted-decimal text of exactly four bytes;
    any other length raises [OSError("packed IP wrong length for
    inet_ntoa")], whose [errno] is [None]. *)
Definition inet_ntoa (packed : bytes) : result string :=
  match packed with
  | [a; b; c; d] =>
      Return (decimal a +:+ "." +:+ decimal b +:+ "." +:+ decimal c +:+ "." +:+ decimal d)
  | _ => Raise (OSError None)
  end.

(** ** The operating system and the state of one run *)

Definition address : Type := string * Z.

Record OS : Type := {
  (** outcome of the n-th call of [randint(0, 255)] *)
  os_randint : nat -> Z;
  (** [fcntl.ioctl(fd, request, arg)] on an immutable [arg] *)
  os_ioctl : Z -> bytes -> result bytes;
  (** [sock.bind(address)] *)
  os_bind : address -> result unit;
  (** [sock.sendto(data, address)] *)
  os_sendto : bytes -> address -> result unit;
  (** the datagram delivered to the n-th [recv] call within its timeout,
      or the exception it raises ([socket_timeout] when none arrives) *)
  os_recv : nat -> result bytes
}.

Record state : Type := {
  drawn : nat;
  sent : list (bytes * address);
  received : nat
}.

Definition initial : state := {| drawn := 0; sent := []; received := 0 |}.

(** State and exception monad.  The state reached when an exception is
    raised is kept. *)
Definition M (A : Type) : Type := state -> result A * state.

Definition ret {A} (a : A) : M A := fun st => (Return a, st).
Definition bind {A B} (m : M A) (k : A -> M B) : M B :=
  fun st =>
    match m st with
    | (Return a, st') => k a st'
    | (Raise e, st') => (Raise e, st')
    end.
Definition lift {A} (r : result A) : M A := fun st => (r, st).

Notation "'let*' x ':=' m 'in' k" := (bind m (fun x => k))
  (at level 10, x name, m at level 100, k at level 200).
Notation "'do*' m 'in' k" := (bind m (fun _ => k))
  (at level 10, m at level 100, k at level 200).

(** The same sequencing for code that raises but touches no state. *)
Definition rbind {A B} (r : result A) (k : A -> result B) : result B :=
  match r with
  | Return a => k a
  | Raise e => Raise e
  end.

Notation "'try*' x ':=' r 'in' k" := (rbind r (fun x => k))
  (at level 10, x name, r at level 100, k at level 200).

Section WithOS.
Variable os : OS.

(** [randint(0, 255)] *)
Definition randint_0_255 : M Z :=
  fun st =>
    (Return (os_randint os (drawn st)),
     {| drawn := S (drawn st); sent := sent st; received := received st |}).

(** [sock.recv(bufsize)]: at most [bufsize] bytes of the next datagram. *)
Definition sock_recv (bufsize : nat) : M bytes :=
  fun st =>
    let st' := {| drawn := drawn st; sent := sent st; received := S (received st) |} in
    match os_recv os (received st) with
    | Return data => (Return (take bufsize data), st')
    | Raise e => (Raise e, st')
    end.

(** [sock.sendto(data, address)] *)
Definition sock_sendto (data : bytes) (addr : address) : M unit :=
  fun st =>
    match os_sendto os data addr with
    | Return _ =>
        (Return tt,
         {| drawn := drawn st; sent := sent st ++ [(data, addr)]; received := received st |})
    | Raise e => (Raise e, st)
    end.

(** ** make_transaction_ID *)

Fixpoint make_transaction_ID_loop (n : nat) (transaction_id : bytes) : M bytes :=
  match n with
  | O => ret transaction_id
  | S n' =>
      let* r := randint_0_255 in
      let* b := lift (struct_pack_B r) in
      make_transaction_ID_loop n' (transaction_id ++ b)
  end.

Definition make_transaction_ID : M bytes := make_transaction_ID_loop 4 [].

End WithOS.

(** ** Text helpers used by the MAC conversions *)

(** [s.split(sep)] for a one-character separator: always at least one
    piece, empty pieces are kept. *)
Fixpoint str_split (sep : ascii) (s : string) : list string :=
  match s with
  | EmptyString => [EmptyString]
  | String c s' =>
      if Ascii.eqb c sep then EmptyString :: str_split sep s'
      else match str_split sep s' with
           | piece :: pieces => String c piece :: pieces
           | [] => [String c EmptyString]
           end
  end.

(** [s[:-1]] *)
Fixpoint str_init (s : string) : string :=
  match s with
  | EmptyString => EmptyString
  | String c EmptyString => EmptyString
  | String c s' => String c (str_init s')
  end.

(** [''.join(pieces)] *)
Definition str_join (pieces : list string) : string :=
  fold_right String.append EmptyString pieces.

(** Whitespace skipped by [int()] around the digits: the ASCII controls
    9-13, the space, and the Latin-1 code points 0x85 and 0xa0.  (The
    separators 28-31 are whitespace for [str.isspace] but not for
    [int()], which rejects them.) *)
Definition is_space (c : ascii) : bool :=
  let n := N_of_ascii c in
  ((9 <=? n) && (n <=? 13) || (n =? 32) || (n =? 133) || (n =? 160))%N.

Fixpoint lstrip (s : string) : string :=
  match s with
  | String c s' => if is_space c then lstrip s' else s
  | EmptyString => EmptyString
  end.

Fixpoint all_space (s : string) : bool :=
  match s with
  | String c s' => is_space c && all_space s'
  | EmptyString => true
  end.

Definition hex_digit_value (c : ascii) : option Z :=
  let n := Z.of_N (N_of_ascii c) in
  if ((48 <=? n) && (n <=? 57))%Z then Some (n - 48)%Z
  else if ((97 <=? n) && (n <=? 102))%Z then Some (n - 87)%Z
  else if ((65 <=? n) && (n <=? 70))%Z then Some (n - 55)%Z
  else None.

(** The digits after the first one.  Single underscores may separate
    digits; [prev] records that the previous character was one.  The scan
    stops at the first other character, and only whitespace may follow. *)
Fixpoint hex_digits (prev : bool) (acc : Z) (s : string) : option Z :=
  match s with
  | EmptyString => if prev then None else Some acc
  | String c s' =>
      if Ascii.eqb c "_" then
        if prev then None else hex_digits true acc s'
      else
        match hex_digit_value c with
        | Some d => hex_digits false (16 * acc + d)%Z s'
        | None => if prev then None else if all_space s then Some acc else None
        end
  end.

(** [int(s, 16)]: optional surrounding whitespace, an optional sign, an
    optional [0x] or [0X] prefix (which one underscore may follow), then at
    least one hexadecimal digit; [ValueError] otherwise. *)
Definition int_16 (s : string) : result Z :=
  let s1 := lstrip s in
  let '(negative, s2) :=
    match s1 with
    | String c r =>
        if Ascii.eqb c "+" then (false, r)
        else if Ascii.eqb c "-" then (true, r)
        else (false, s1)
    | EmptyString => (false, s1)
    end in
  let s3 :=
    match s2 with
    | String z (String x r) =>
        if Ascii.eqb z "0" && (Ascii.eqb x "x" || Ascii.eqb x "X") then
          match r with
          | String u r' => if Ascii.eqb u "_" then r' else r
          | EmptyString => r
          end
        else s2
    | _ => s2
    end in
  match s3 with
  | String c r =>
      match hex_digit_value c with
      | Some d =>
          match hex_digits false d r with
          | Some v => Return (if negative then (- v)%Z else v)
          | None => Raise ValueError
          end
      | None => Raise ValueError
      end
  | EmptyString => Raise ValueError
  end.

(** ['%02x:' % char] for a byte [char]. *)
Definition hex_digit (n : N) : ascii :=
  ascii_of_N (if (n <? 10)%N then 48 + n else 87 + n)%N.

Definition format_02x_colon (char : byte) : string :=
  let n := Byte.to_N char in
  String (hex_digit (n / 16)) (String (hex_digit (n mod 16)) (String ":" EmptyString)).

(** [s.encode('ascii')] *)
Definition encode_ascii (s : string) : result bytes :=
  if forallb (fun c => (N_of_ascii c <? 128)%N) (list_ascii_of_string s)
  then Return (map byte_of_ascii (list_ascii_of_string s))
  else Raise UnicodeEncodeError.

(** ** DHCPDiscoverPacket *)

Module DHCPDiscoverPacket.

Record t : Type := {
  transaction_ID : bytes;
  packed_mac : bytes;
  packet : bytes
}.

Fixpoint string_mac_to_packed_loop (pairs : list string) (packed : bytes)
  : result bytes :=
  match pairs with
  | [] => Return packed
  | pair_ :: pairs' =>
      try* hex_octet := int_16 pair_ in
      try* b := struct_pack_B hex_octet in
      string_mac_to_packed_loop pairs' (packed ++ b)
  end.

Definition string_mac_to_packed (mac : string) : result bytes :=
  string_mac_to_packed_loop (str_split ":" mac) [].

Definition _build (transaction_ID packed_mac : bytes) : bytes :=
  [] ++ [x01]                        (* Message type: Boot Request (1) *)
     ++ [x01]                        (* Hardware type: Ethernet *)
     ++ [x06]                        (* Hardware address length: 6 *)
     ++ [x00]                        (* Hops: 0 *)
     ++ transaction_ID
     ++ [x00; x00]                   (* Seconds elapsed: 0 *)
     ++ [x80; x00]                   (* Bootp flags: 0x8000 *)
     ++ [x00; x00; x00; x00]         (* Client IP address *)
     ++ [x00; x00; x00; x00]         (* Your (client) IP address *)
     ++ [x00; x00; x00; x00]         (* Next server IP address *)
     ++ [x00; x00; x00; x00]         (* Relay agent IP address *)
     ++ packed_mac
     ++ [x00; x00; x00; x00; x00; x00; x00; x00; x00; x00]  (* padding *)
     ++ replicate 67 x00             (* Server host name not given *)
     ++ replicate 125 x00            (* Boot file name not given *)
     ++ [x63; x82; x53; x63]         (* Magic cookie: DHCP *)
     ++ [x35; x01; x01]              (* Option 53: DHCP Discover *)
     ++ ([x3d; x06] ++ packed_mac)
     ++ [x37; x03; x03; x01; x06]    (* Option 55: Parameter Request List *)
     ++ [xff].                       (* End Option *)

Definition __init__ (os : OS) (my_mac : string) : M t :=
  let* tid := make_transaction_ID os in
  let* mac := lift (string_mac_to_packed my_mac) in
  ret {| transaction_ID := tid; packed_mac := mac; packet := _build tid mac |}.

End DHCPDiscoverPacket.

(** ** DHCPOfferPacket *)

Module DHCPOfferPacket.

Record t : Type := {
  transaction_ID : bytes;
  dhcp_server_ID : string
}.

Definition __init__ (data : bytes) : result t :=
  let tid := slice 4 8 data in
  try* server := inet_ntoa (slice 245 249 data) in
  Return {| transaction_ID := tid; dhcp_server_ID := server |}.

End DHCPOfferPacket.

(** ** Interface queries and sockets *)

(** UDP ports for the BOOTP protocol. *)
Definition BOOTP_SERVER_PORT : Z := 67.
Definition BOOTP_CLIENT_PORT : Z := 68.

(** ioctl requests for the IP address and the hardware (MAC) address. *)
Definition SIOCGIFADDR : Z := 0x8915.
Definition SIOCGIFHWADDR : Z := 0x8927.

(** [socket.AF_INET] packed as a native unsigned short (little-endian). *)
Definition AF_INET_H : bytes := [x02; x00].

(** The file descriptor passed to [ioctl] is not part of the model: the
    reply depends on the request and its argument only.  Creating,
    configuring and closing a socket ([udp_socket], [setsockopt],
    [settimeout]) always succeed and leave no trace in the state. *)
Definition get_interface_MAC (os : OS) (interface : string) : M string :=
  let* name := lift (encode_ascii interface) in
  let ifreq := struct_pack_s 256 (slice 0 15 name) in
  let* info := lift (os_ioctl os SIOCGIFHWADDR ifreq) in
  let mac := str_init (str_join (map format_02x_colon (slice 18 24 info))) in
  ret mac.

(** [struct.unpack(b'16sH2x4s8x', info)[2]]: the buffer must be exactly
    32 bytes long; the third field is at offsets 20-24. *)
Definition unpack_ifreq_addr (info : bytes) : result bytes :=
  if decide (length info = 32) then Return (slice 20 24 info)
  else Raise struct_error.

Definition get_interface_IP (os : OS) (interface : string) : M string :=
  let* name := lift (encode_ascii interface) in
  let ifreq :=
    struct_pack_s 16 (slice 0 15 name) ++ AF_INET_H
      ++ struct_pack_s 14 (replicate 14 x00) in
  let* info := lift (os_ioctl os SIOCGIFADDR ifreq) in
  let* ip := lift (unpack_ifreq_addr info) in
  lift (inet_ntoa ip).

(** [sock.bind(address)] *)
Definition sock_bind (os : OS) (addr : address) : M unit :=
  lift (os_bind os addr).

(** ** Sending the request *)

(** [with udp_socket() as sock]: the socket is taken to open and to
    accept its options, so the body starts at the first interface query;
    a host on which [socket()] or [setsockopt()] itself fails is outside
    this model. *)
Definition request_dhcp (os : OS) (interface : string) : M bytes :=
  let* mac := get_interface_MAC os interface in
  let* bind_address := get_interface_IP os interface in
  let* discover := DHCPDiscoverPacket.__init__ os mac in
  do* sock_bind os (bind_address, BOOTP_CLIENT_PORT) in
  do* sock_sendto os (DHCPDiscoverPacket.packet discover)
        ("<broadcast>", BOOTP_SERVER_PORT) in
  ret (DHCPDiscoverPacket.transaction_ID discover).

(** ** Receiving the offers *)

(** One pass through the body of the [while True] loop: set the timeout,
    read, decode, and add the server when the transaction matches. *)
Definition receive_offers_body (os : OS) (transaction_id : bytes)
    (servers : gset string) : M (gset string) :=
  let* data := sock_recv os 1024 in
  let* offer := lift (DHCPOfferPacket.__init__ data) in
  if bool_decide (DHCPOfferPacket.transaction_ID offer = transaction_id)
  then ret ({[ DHCPOfferPacket.dhcp_server_ID offer ]} ∪ servers)
  else ret servers.

(** The [while True] loop has no exit of its own: it ends only when an
    exception leaves its body.  The result is the value of [servers] at
    that moment, the exception, and the state; [None] means the loop is
    still running after [fuel] passes. *)
Fixpoint receive_offers_loop (os : OS) (fuel : nat) (transaction_id : bytes)
    (servers : gset string) (st : state)
    : option (gset string * exception * state) :=
  match fuel with
  | O => None
  | S fuel' =>
      match receive_offers_body os transaction_id servers st with
      | (Return servers', st') =>
          receive_offers_loop os fuel' transaction_id servers' st'
      | (Raise e, st') => Some (servers, e, st')
      end
  end.

Definition receive_offers (os : OS) (fuel : nat) (transaction_id : bytes)
    (st : state) : option (result (gset string) * state) :=
  let servers : gset string := ∅ in
  match sock_bind os ("", BOOTP_CLIENT_PORT) st with
  | (Raise e, st') => Some (Raise e, st')
  | (Return _, st') =>
      match receive_offers_loop os fuel transaction_id servers st' with
      | None => None
      | Some (servers', e, st'') =>
          if is_socket_timeout e then Some (Return servers', st'')
          else Some (Raise e, st'')
      end
  end.

(** ** The probe *)

Definition probe_dhcp (os : OS) (fuel : nat) (interface : string) (st : state)
    : option (result (gset string) * state) :=
  match request_dhcp os interface st with
  | (Raise e, st') => Some (Raise e, st')
  | (Return transaction_id, st') => receive_offers os fuel transaction_id st'
  end.

(** Messages sent to [maaslog]. *)
Inductive log_record : Type :=
| log_debug (interface : string)
| log_error (interface : string).

Definition probe_interface (os : OS) (fuel : nat) (interface : string)
    (st : state) : option (result (gset string) * list log_record * state) :=
  match probe_dhcp os fuel interface st with
  | None => None
  | Some (Return servers, st') => Some (Return servers, [], st')
  | Some (Raise e, st') =>
      if is_IOError e then
        let servers : gset string := ∅ in
        if bool_decide (errno_of e = Some EADDRNOTAVAIL) then
          Some (Return servers, [log_debug interface], st')
        else if bool_decide (errno_of e = Some ENODEV) then
          Some (Return servers, [log_error interface], st')
        else Some (Raise e, [], st')
      else Some (Raise e, [], st')
  end.


(** ** Datagrams and environments used to state and exercise the results *)

(** [data] with the bytes [a] written over it from offset [off]: a
    synthetic OFFER is a datagram with a server address placed at 245. *)
Definition place_at (off : nat) (a data : bytes) : bytes :=
  take off data ++ a ++ drop (off + length a) data.

(** The state after [n] more [recv] calls. *)
Definition after_recv (n : nat) (st : state) : state :=
  {| drawn := drawn st; sent := sent st; received := received st + n |}.

(** The state after [n] more [randint] calls. *)
Definition after_draws (n : nat) (st : state) : state :=
  {| drawn := drawn st + n; sent := sent st; received := received st |}.

Definition byte_value (b : byte) : Z := Z.of_N (Byte.to_N b).

(** The two hexadecimal digits that ['%02x'] prints for a byte. *)
Definition hex_pair (b : byte) : string :=
  let n := Byte.to_N b in
  String (hex_digit (n / 16)) (String (hex_digit (n mod 16)) EmptyString).

(** An environment whose random draws are 0, 1, 2, ..., 255, 0, ... *)
Definition os_counting : OS := {|
  os_randint := fun n => (Z.of_nat n mod 256)%Z;
  os_ioctl := fun _ _ => Raise (OSError None);
  os_bind := fun _ => Return tt;
  os_sendto := fun _ _ => Return tt;
  os_recv := fun _ => Raise socket_timeout
|}.

(** The servers that one datagram contributes for transaction [t]: its
    decoded server address when it decodes and its transaction ID is [t]. *)
Definition offered (t : bytes) (d : bytes) : gset string :=
  match DHCPOfferPacket.__init__ d with
  | Return offer =>
      if bool_decide (DHCPOfferPacket.transaction_ID offer = t)
      then {[ DHCPOfferPacket.dhcp_server_ID offer ]} else ∅
  | Raise _ => ∅
  end.

Definition offers (t : bytes) (ds : list bytes) : gset string :=
  ⋃ (offered t <$> ds).

(** The reads made from state [st] deliver the datagrams [ds] in order. *)
Definition delivers (os : OS) (st : state) (ds : list bytes) : Prop :=
  forall i d, ds !! i = Some d -> os_recv os (received st + i) = Return d.

(** A 249-byte datagram carrying transaction [t] and server address [a]. *)
Definition offer_datagram (t a : bytes) : bytes :=
  replicate 4 x00 ++ t ++ replicate 237 x00 ++ a.

(** Four datagrams seen by a probe with transaction 01 02 03 04: a server
    at 10.0.0.1, a foreign transaction, 10.0.0.1 again, and 10.0.0.2. *)
Definition four_offers : list bytes :=
  [offer_datagram [x01; x02; x03; x04] [x0a; x00; x00; x01];
   offer_datagram [x09; x09; x09; x09] [x0a; x00; x00; x09];
   offer_datagram [x01; x02; x03; x04] [x0a; x00; x00; x01];
   offer_datagram [x01; x02; x03; x04] [x0a; x00; x00; x02]].

(** A host with interface eth0 (MAC aa:bb:cc:dd:ee:ff, address 10.0.0.5)
    on which the datagrams [ds] arrive one per read, followed by silence. *)
Definition os_lan (ds : list bytes) : OS := {|
  os_randint := fun n => (Z.of_nat n mod 256)%Z;
  os_ioctl := fun request _ =>
    if (request =? SIOCGIFHWADDR)%Z then
      Return (replicate 18 x00 ++ [xaa; xbb; xcc; xdd; xee; xff]
                ++ replicate 232 x00)
    else
      Return (replicate 20 x00 ++ [x0a; x00; x00; x05] ++ replicate 8 x00);
  os_bind := fun _ => Return tt;
  os_sendto := fun _ _ => Return tt;
  os_recv := fun n =>
    match ds !! n with
    | Some d => Return d
    | None => Raise socket_timeout
    end
|}.

(** The same host when every ioctl fails with [errno]. *)
Definition os_ioctl_fails (errno : Z) : OS := {|
  os_randint := fun n => (Z.of_nat n mod 256)%Z;
  os_ioctl := fun _ _ => Raise (OSError (Some errno));
  os_bind := fun _ => Return tt;
  os_sendto := fun _ _ => Return tt;
  os_recv := fun _ => Raise socket_timeout
|}.

(** errno.EACCES (Linux value). *)
Definition EACCES : Z := 13.

(** The two hexadecimal digits of a byte in upper case, the form
    AA:BB:CC:DD:EE:FF of the docstring of [string_mac_to_packed]. *)
Definition hex_digit_upper (n : N) : ascii :=
  ascii_of_N (if (n <? 10)%N then 48 + n else 55 + n)%N.

Definition hex_pair_upper (b : byte) : string :=
  let n := Byte.to_N b in
  String (hex_digit_upper (n / 16))
    (String (hex_digit_upper (n mod 16)) EmptyString).

(** [sep.join(pieces)] for a one-character separator. *)
Fixpoint str_join_sep (sep : ascii) (pieces : list string) : string :=
  match pieces with
  | [] => EmptyString
  | [piece] => piece
  | piece :: pieces' => piece +:+ String sep (str_join_sep sep pieces')
  end.

(** The character [c] does not occur in [s]. *)
Fixpoint str_free (c : ascii) (s : string) : bool :=
  match s with
  | EmptyString => true
  | String c' s' => negb (Ascii.eqb c' c) && str_free c s'
  end.

(** On the host [os] the interface resolves: its name is ASCII, the
    hardware-address query replies with [m] at bytes 18-24 ([m] not
    empty), and the address query replies with 32 bytes holding [ip] at
    bytes 20-24. *)
Definition resolves (os : OS) (interface : string) (m ip : bytes) : Prop :=
  exists name info_hw info_ip : bytes,
    encode_ascii interface = Return name /\
    os_ioctl os SIOCGIFHWADDR (struct_pack_s 256 (slice 0 15 name))
      = Return info_hw /\
    slice 18 24 info_hw = m /\ m <> [] /\
    os_ioctl os SIOCGIFADDR
      (struct_pack_s 16 (slice 0 15 name) ++ AF_INET_H
         ++ struct_pack_s 14 (replicate 14 x00)) = Return info_ip /\
    length info_ip = 32 /\
    slice 20 24 info_ip = ip.

(** The host [os_lan], except that the read after the datagrams [ds]
    raises [e] instead of timing out. *)
Definition os_lan_then (ds : list bytes) (e : exception) : OS := {|
  os_randint := os_randint (os_lan ds);
  os_ioctl := os_ioctl (os_lan ds);
  os_bind := os_bind (os_lan ds);
  os_sendto := os_sendto (os_lan ds);
  os_recv := fun n =>
    match ds !! n with
    | Some d => Return d
    | None => Raise e
    end
|}.

(** The state after one datagram has been sent. *)
Definition after_send (data : bytes) (addr : address) (st : state) : state :=
  {| drawn := drawn st; sent := sent st ++ [(data, addr)]; received := received st |}.

(** * Results *)

(** ** Slices *)

Lemma length_slice {A} (i j : nat) (l : list A) :
  length (slice i j l) = (j - i) `min` (length l - i).
Proof. unfold slice. by rewrite length_take, length_drop. Qed.

Lemma slice_lookup {A} (i j k : nat) (l : list A) :
  k < j - i -> slice i j l !! k = l !! (i + k).
Proof.
  intros Hk. unfold slice.
  rewrite lookup_take_lt by done. apply lookup_drop.
Qed.

Lemma slice_ext {A} (i j : nat) (l1 l2 : list A) :
  (forall k, i <= k < j -> l1 !! k = l2 !! k) -> slice i j l1 = slice i j l2.
Proof.
  intros H. apply list_eq. intros k.
  destruct (decide (k < j - i)) as [Hk|Hk].
  - rewrite !slice_lookup by done. apply H. lia.
  - unfold slice. rewrite !lookup_take_ge by lia. done.
Qed.

Lemma slice_take {A} (i j n : nat) (l : list A) :
  j <= n -> slice i j (take n l) = slice i j l.
Proof.
  intros Hj. apply slice_ext. intros k Hk.
  apply lookup_take_lt. lia.
Qed.

Lemma list_length_4 {A} (l : list A) :
  length l = 4 -> exists a b c d, l = [a; b; c; d].
Proof.
  destruct l as [|a [|b [|c [|d [|? ?]]]]]; simpl; try discriminate.
  intros _. by exists a, b, c, d.
Qed.

Lemma inet_ntoa_short (packed : bytes) :
  length packed < 4 -> inet_ntoa packed = Raise (OSError None).
Proof.
  destruct packed as [|a [|b [|c [|d ?]]]]; simpl; try done. lia.
Qed.

Lemma place_at_lookup_before (off k : nat) (a data : bytes) :
  k < off -> off <= length data -> place_at off a data !! k = data !! k.
Proof.
  intros Hk Hoff. unfold place_at.
  rewrite lookup_app_l by (rewrite length_take; lia).
  by apply lookup_take_lt.
Qed.

Lemma place_at_lookup_inside (off k : nat) (a data : bytes) :
  k < length a -> off <= length data -> place_at off a data !! (off + k) = a !! k.
Proof.
  intros Hk Hoff. unfold place_at.
  rewrite lookup_app_r by (rewrite length_take; lia).
  rewrite length_take.
  replace (off + k - off `min` length data) with k by lia.
  by apply lookup_app_l.
Qed.

Lemma place_at_lookup_after (off k : nat) (a data : bytes) :
  off + length a <= k -> off <= length data ->
  place_at off a data !! k = data !! k.
Proof.
  intros Hk Hoff. unfold place_at.
  rewrite lookup_app_r by (rewrite length_take; lia).
  rewrite length_take.
  rewrite lookup_app_r by lia.
  rewrite lookup_drop. f_equal. lia.
Qed.

Lemma length_place_at (off : nat) (a data : bytes) :
  off + length a <= length data -> length (place_at off a data) = length data.
Proof.
  intros H. unfold place_at.
  rewrite !length_app, length_take, length_drop. lia.
Qed.

Lemma slice_place_at_same (off : nat) (a data : bytes) :
  off <= length data -> slice off (off + length a) (place_at off a data) = a.
Proof.
  intros Hoff. apply list_eq. intros k.
  destruct (decide (k < length a)) as [Hk|Hk].
  - rewrite slice_lookup by lia. by apply place_at_lookup_inside.
  - unfold slice. rewrite lookup_take_ge by lia.
    symmetry. apply lookup_ge_None. lia.
Qed.

Lemma slice_place_at_disjoint (i j off : nat) (a data : bytes) :
  off + length a <= length data ->
  j <= off \/ off + length a <= i ->
  slice i j (place_at off a data) = slice i j data.
Proof.
  intros Hlen Hdis. apply slice_ext. intros k Hk.
  destruct Hdis.
  - apply place_at_lookup_before; lia.
  - apply place_at_lookup_after; lia.
Qed.

(** ** Decoding an OFFER *)

(** A datagram of at least 249 bytes decodes: the transaction ID is
    bytes 4-8 and the server is the dotted-decimal text of bytes 245-249. *)
Lemma offer_init_long (data : bytes) :
  249 <= length data ->
  exists a b c d,
    slice 245 249 data = [a; b; c; d] /\
    DHCPOfferPacket.__init__ data =
      Return {| DHCPOfferPacket.transaction_ID := slice 4 8 data;
                DHCPOfferPacket.dhcp_server_ID :=
                  decimal a +:+ "." +:+ decimal b +:+ "." +:+ decimal c
                    +:+ "." +:+ decimal d |}.
Proof.
  intros Hlen.
  destruct (list_length_4 (slice 245 249 data)) as (a & b & c & d & Hs).
  { rewrite length_slice. lia. }
  exists a, b, c, d. split; [done|].
  unfold DHCPOfferPacket.__init__. rewrite Hs. reflexivity.
Qed.

Lemma offer_init_short (data : bytes) :
  length data < 249 -> DHCPOfferPacket.__init__ data = Raise (OSError None).
Proof.
  intros Hlen. unfold DHCPOfferPacket.__init__.
  rewrite inet_ntoa_short; [done|]. rewrite length_slice. lia.
Qed.

(** C10: offer decoding succeeds exactly on inputs of at least 249 bytes.
    On such a datagram it returns the 4-byte transaction ID at offsets 4-8
    and the dotted-decimal text of the four bytes at offsets 245-249.  On a
    shorter datagram it raises: the transaction-ID slice is still taken
    (it is merely shorter than asked for, never a fault), and the failure
    is the conversion of a server-address field of fewer than 4 bytes. *)
Theorem offer_decodes_iff_long_enough (data : bytes) :
  (249 <= length data ->
     exists a b c d,
       slice 245 249 data = [a; b; c; d] /\
       length (slice 4 8 data) = 4 /\
       DHCPOfferPacket.__init__ data =
         Return {| DHCPOfferPacket.transaction_ID := slice 4 8 data;
                   DHCPOfferPacket.dhcp_server_ID :=
                     decimal a +:+ "." +:+ decimal b +:+ "." +:+ decimal c
                       +:+ "." +:+ decimal d |}) /\
  (length data < 249 ->
     length (slice 4 8 data) = 4 `min` (length data - 4) /\
     length (slice 245 249 data) < 4 /\
     inet_ntoa (slice 245 249 data) = Raise (OSError None) /\
     DHCPOfferPacket.__init__ data = Raise (OSError None)).
Proof.
  split; intros Hlen.
  - destruct (offer_init_long data Hlen) as (a & b & c & d & Hs & Hinit).
    exists a, b, c, d. repeat split; try done.
    rewrite length_slice. lia.
  - assert (length (slice 245 249 data) < 4) by (rewrite length_slice; lia).
    repeat split.
    + by rewrite length_slice.
    + done.
    + by apply inet_ntoa_short.
    + by apply offer_init_short.
Qed.

(** The decoder at a 249-byte datagram and at a 248-byte one. *)
Lemma offer_decodes_iff_long_enough_witness :
  (exists a b c d,
     slice 245 249 (replicate 249 x07) = [a; b; c; d] /\
     length (slice 4 8 (replicate 249 x07)) = 4 /\
     DHCPOfferPacket.__init__ (replicate 249 x07) =
       Return {| DHCPOfferPacket.transaction_ID := slice 4 8 (replicate 249 x07);
                 DHCPOfferPacket.dhcp_server_ID :=
                   decimal a +:+ "." +:+ decimal b +:+ "." +:+ decimal c
                     +:+ "." +:+ decimal d |}) /\
  DHCPOfferPacket.__init__ (replicate 248 x07) = Raise (OSError None).
Proof.
  split.
  - apply (proj1 (offer_decodes_iff_long_enough (replicate 249 x07))).
    vm_compute. lia.
  - apply (proj2 (offer_decodes_iff_long_enough (replicate 248 x07))).
    vm_compute. lia.
Defined.

(** C8: decoding depends only on bytes 4-8 and 245-249.  Two datagrams of
    at least 249 bytes that agree on those two fields decode to the same
    offer; in particular overwriting the magic cookie (offsets 236-240) or
    the message-type option (offsets 240-243) changes nothing, so neither
    is validated. *)
Theorem offer_depends_only_on_fields (d1 d2 : bytes) :
  249 <= length d1 -> 249 <= length d2 ->
  slice 4 8 d1 = slice 4 8 d2 ->
  slice 245 249 d1 = slice 245 249 d2 ->
  (exists offer,
     DHCPOfferPacket.__init__ d1 = Return offer /\
     DHCPOfferPacket.__init__ d2 = Return offer) /\
  (forall cookie option53 : bytes,
     length cookie = 4 -> length option53 = 3 ->
     DHCPOfferPacket.__init__ (place_at 236 cookie (place_at 240 option53 d1)) =
     DHCPOfferPacket.__init__ d2).
Proof.
  intros H1 H2 Htid Hsrv.
  destruct (offer_init_long d1 H1) as (a & b & c & d & Hs1 & Hi1).
  assert (Heq : DHCPOfferPacket.__init__ d1 = DHCPOfferPacket.__init__ d2).
  { unfold DHCPOfferPacket.__init__. by rewrite Htid, Hsrv. }
  split.
  - eexists. split; [exact Hi1|]. by rewrite <- Heq.
  - intros cookie option53 Hc Ho. rewrite <- Heq.
    assert (Hl : length (place_at 240 option53 d1) = length d1)
      by (apply length_place_at; lia).
    unfold DHCPOfferPacket.__init__.
    rewrite !(slice_place_at_disjoint _ _ 236) by lia.
    rewrite !(slice_place_at_disjoint _ _ 240) by lia.
    done.
Qed.

(** Two 249-byte datagrams that differ everywhere outside the two fields. *)
Lemma offer_depends_only_on_fields_witness :
  exists offer,
    DHCPOfferPacket.__init__
      (replicate 4 x00 ++ [x01; x02; x03; x04] ++ replicate 237 x00
         ++ [x0a; x00; x00; x01]) = Return offer /\
    DHCPOfferPacket.__init__
      (replicate 4 xff ++ [x01; x02; x03; x04] ++ replicate 237 xff
         ++ [x0a; x00; x00; x01]) = Return offer.
Proof.
  apply (offer_depends_only_on_fields
           (replicate 4 x00 ++ [x01; x02; x03; x04] ++ replicate 237 x00
              ++ [x0a; x00; x00; x01])
           (replicate 4 xff ++ [x01; x02; x03; x04] ++ replicate 237 xff
              ++ [x0a; x00; x00; x01])).
  - vm_compute. lia.
  - vm_compute. lia.
  - reflexivity.
  - reflexivity.
Defined.

(** ** Dotted-decimal text determines the address *)

Lemma decimal_inj (b b' : byte) : decimal b = decimal b' -> b = b'.
Proof.
  intros H.
  assert (Hu : N.to_uint (Byte.to_N b) = N.to_uint (Byte.to_N b')).
  { apply (f_equal NilEmpty.uint_of_string) in H.
    unfold decimal in H. rewrite !NilEmpty.usu in H. congruence. }
  apply (f_equal N.of_uint) in Hu. rewrite !DecimalN.Unsigned.of_to in Hu.
  apply (f_equal Byte.of_N) in Hu. rewrite !Byte.of_to_N in Hu. congruence.
Qed.

Lemma str_split_decimal_dot (b : byte) (rest : string) :
  str_split "." (decimal b +:+ "." +:+ rest) = decimal b :: str_split "." rest.
Proof. destruct b; reflexivity. Qed.

Lemma str_split_decimal (b : byte) : str_split "." (decimal b) = [decimal b].
Proof. destruct b; reflexivity. Qed.

Lemma inet_ntoa_inj (a a' : bytes) (s : string) :
  inet_ntoa a = Return s -> inet_ntoa a' = Return s -> a = a'.
Proof.
  destruct a as [|a0 [|a1 [|a2 [|a3 [|? ?]]]]]; simpl; try discriminate.
  destruct a' as [|b0 [|b1 [|b2 [|b3 [|? ?]]]]]; simpl; try discriminate.
  intros [= <-] [= H].
  apply (f_equal (str_split ".")) in H.
  rewrite !str_split_decimal_dot, !str_split_decimal in H.
  injection H as H0 H1 H2 H3.
  by rewrite (decimal_inj _ _ H0), (decimal_inj _ _ H1),
             (decimal_inj _ _ H2), (decimal_inj _ _ H3).
Qed.

(** ** The DISCOVER datagram *)

Lemma list_length_6 {A} (l : list A) :
  length l = 6 -> exists a b c d e f, l = [a; b; c; d; e; f].
Proof.
  destruct l as [|a [|b [|c [|d [|e [|f [|? ?]]]]]]]; simpl; try discriminate.
  intros _. by exists a, b, c, d, e, f.
Qed.

Lemma length_build (t m : bytes) :
  length (DHCPDiscoverPacket._build t m) = 241 + length t + 2 * length m.
Proof.
  unfold DHCPDiscoverPacket._build.
  rewrite !length_app, !length_replicate. simpl. lia.
Qed.

(** C5: encode/decode round trip.  A datagram of at least 249 bytes whose
    bytes 4-8 are [t] and whose bytes 245-249 are [a] decodes to exactly
    [t] and the dotted-decimal text of [a]; that text determines [a]; and
    all of this holds for the synthetic OFFER made of an encoded DISCOVER
    with [a] placed at offset 245. *)
Theorem offer_roundtrip (t a : bytes) :
  length t = 4 -> length a = 4 ->
  exists a0 a1 a2 a3,
    a = [a0; a1; a2; a3] /\
    let offer :=
      {| DHCPOfferPacket.transaction_ID := t;
         DHCPOfferPacket.dhcp_server_ID :=
           decimal a0 +:+ "." +:+ decimal a1 +:+ "." +:+ decimal a2
             +:+ "." +:+ decimal a3 |} in
    inet_ntoa a = Return (DHCPOfferPacket.dhcp_server_ID offer) /\
    (forall a' : bytes,
       inet_ntoa a' = Return (DHCPOfferPacket.dhcp_server_ID offer) -> a' = a) /\
    (forall data : bytes,
       249 <= length data -> slice 4 8 data = t -> slice 245 249 data = a ->
       DHCPOfferPacket.__init__ data = Return offer) /\
    (forall mac : bytes,
       length mac = 6 ->
       DHCPOfferPacket.__init__
         (place_at 245 a (DHCPDiscoverPacket._build t mac)) = Return offer).
Proof.
  intros Ht Ha.
  destruct (list_length_4 a Ha) as (a0 & a1 & a2 & a3 & ->).
  exists a0, a1, a2, a3. split; [done|]. cbv zeta.
  assert (Hdec : forall data : bytes,
    249 <= length data -> slice 4 8 data = t ->
    slice 245 249 data = [a0; a1; a2; a3] ->
    DHCPOfferPacket.__init__ data =
      Return {| DHCPOfferPacket.transaction_ID := t;
                DHCPOfferPacket.dhcp_server_ID :=
                  decimal a0 +:+ "." +:+ decimal a1 +:+ "." +:+ decimal a2
                    +:+ "." +:+ decimal a3 |}).
  { intros data Hlen Htid Hsrv.
    unfold DHCPOfferPacket.__init__. rewrite Htid, Hsrv. reflexivity. }
  split; [reflexivity|]. split; [|split].
  - intros a' Ha'. by apply (inet_ntoa_inj a' [a0; a1; a2; a3] _ Ha').
  - exact Hdec.
  - intros mac Hmac.
    assert (Hb : length (DHCPDiscoverPacket._build t mac) = 257)
      by (rewrite length_build; lia).
    apply Hdec.
    + rewrite length_place_at; rewrite Hb; simpl; lia.
    + rewrite slice_place_at_disjoint by (rewrite ?Hb; simpl; lia).
      destruct (list_length_4 t Ht) as (t0 & t1 & t2 & t3 & ->). reflexivity.
    + apply (slice_place_at_same 245 [a0; a1; a2; a3]). rewrite Hb. lia.
Qed.

(** The round trip at transaction 01 02 03 04 and server 10.0.0.1. *)
Lemma offer_roundtrip_witness :
  DHCPOfferPacket.__init__
    (place_at 245 [x0a; x00; x00; x01]
       (DHCPDiscoverPacket._build [x01; x02; x03; x04]
          [xaa; xbb; xcc; xdd; xee; xff])) =
  Return {| DHCPOfferPacket.transaction_ID := [x01; x02; x03; x04];
            DHCPOfferPacket.dhcp_server_ID := "10.0.0.1" |}.
Proof.
  destruct (offer_roundtrip [x01; x02; x03; x04] [x0a; x00; x00; x01]
              eq_refl eq_refl)
    as (a0 & a1 & a2 & a3 & Ha & _ & _ & _ & H).
  injection Ha as <- <- <- <-.
  exact (H [xaa; xbb; xcc; xdd; xee; xff] eq_refl).
Defined.

Lemma str_split_hex_colon (b : byte) (rest : string) :
  str_split ":" (format_02x_colon b +:+ rest) = hex_pair b :: str_split ":" rest.
Proof. destruct b; reflexivity. Qed.

Lemma str_init_hex_colon (b : byte) (rest : string) :
  rest <> EmptyString ->
  str_init (format_02x_colon b +:+ rest) = format_02x_colon b +:+ str_init rest.
Proof. destruct rest; [done|]. intros _. reflexivity. Qed.

Lemma str_split_hex_pair (b : byte) : str_split ":" (hex_pair b) = [hex_pair b].
Proof. destruct b; reflexivity. Qed.

(** The text built by [get_interface_MAC] splits back into one pair of
    digits per byte. *)
Lemma str_split_mac_text (b : byte) (m : bytes) :
  str_split ":" (str_init (str_join (map format_02x_colon (b :: m)))) =
  map hex_pair (b :: m).
Proof.
  revert b. induction m as [|b' m IH]; intros b.
  - destruct b; reflexivity.
  - change (str_join (map format_02x_colon (b :: b' :: m)))
      with (format_02x_colon b +:+ str_join (map format_02x_colon (b' :: m))).
    rewrite str_init_hex_colon by done.
    rewrite str_split_hex_colon, IH. reflexivity.
Qed.

Lemma int_16_hex_pair (b : byte) : int_16 (hex_pair b) = Return (byte_value b).
Proof. destruct b; reflexivity. Qed.

Lemma struct_pack_B_byte (b : byte) : struct_pack_B (byte_value b) = Return [b].
Proof. destruct b; reflexivity. Qed.

Lemma string_mac_to_packed_loop_pairs (m packed : bytes) :
  DHCPDiscoverPacket.string_mac_to_packed_loop (map hex_pair m) packed =
  Return (packed ++ m).
Proof.
  revert packed. induction m as [|b m IH]; intros packed; simpl.
  - by rewrite app_nil_r.
  - rewrite int_16_hex_pair. simpl. rewrite struct_pack_B_byte. simpl.
    rewrite IH. by rewrite <- app_assoc.
Qed.

(** Every non-empty byte string, printed the way [get_interface_MAC]
    prints it, converts back to itself. *)
Lemma string_mac_to_packed_text (b : byte) (m : bytes) :
  DHCPDiscoverPacket.string_mac_to_packed
    (str_init (str_join (map format_02x_colon (b :: m)))) = Return (b :: m).
Proof.
  unfold DHCPDiscoverPacket.string_mac_to_packed.
  rewrite str_split_mac_text. apply string_mac_to_packed_loop_pairs.
Qed.

(** ** The transaction ID *)

Lemma struct_pack_B_in_range (n : Z) :
  (0 <= n <= 255)%Z ->
  exists b, struct_pack_B n = Return [b] /\ byte_value b = n.
Proof.
  intros Hn. unfold struct_pack_B.
  replace ((0 <=? n)%Z && (n <=? 255)%Z) with true
    by (symmetry; apply andb_true_iff; split; apply Z.leb_le; lia).
  destruct (Byte.of_N (Z.to_N n)) as [b|] eqn:Hb.
  - exists b. split; [done|]. unfold byte_value.
    rewrite (Byte.to_of_N _ Hb). lia.
  - apply Byte.of_N_None_iff in Hb. lia.
Qed.

(** With four draws in range the generator returns the four drawn bytes,
    in order, and consumes exactly four draws. *)
Lemma make_transaction_ID_run (os : OS) (st : state) :
  (forall i, i < 4 -> (0 <= os_randint os (drawn st + i) <= 255)%Z) ->
  exists b0 b1 b2 b3,
    make_transaction_ID os st = (Return [b0; b1; b2; b3], after_draws 4 st) /\
    map byte_value [b0; b1; b2; b3] =
      map (fun i => os_randint os (drawn st + i)) [0; 1; 2; 3].
Proof.
  intros Hr.
  destruct (struct_pack_B_in_range _ (Hr 0 ltac:(lia))) as (b0 & Hp0 & Hv0).
  destruct (struct_pack_B_in_range _ (Hr 1 ltac:(lia))) as (b1 & Hp1 & Hv1).
  destruct (struct_pack_B_in_range _ (Hr 2 ltac:(lia))) as (b2 & Hp2 & Hv2).
  destruct (struct_pack_B_in_range _ (Hr 3 ltac:(lia))) as (b3 & Hp3 & Hv3).
  exists b0, b1, b2, b3. split.
  - unfold make_transaction_ID, make_transaction_ID_loop, bind, lift, ret,
      randint_0_255. cbn [drawn sent received].
    replace (drawn st) with (drawn st + 0) at 1 by lia. rewrite Hp0.
    replace (S (drawn st)) with (drawn st + 1) by lia. rewrite Hp1.
    replace (S (drawn st + 1)) with (drawn st + 2) by lia. rewrite Hp2.
    replace (S (drawn st + 2)) with (drawn st + 3) by lia. rewrite Hp3.
    unfold after_draws. simpl. do 2 f_equal. lia.
  - simpl. by rewrite Hv0, Hv1, Hv2, Hv3.
Qed.

(** When the four draws are the values of four given bytes, those bytes
    are the transaction ID. *)
Lemma make_transaction_ID_bytes (os : OS) (st : state) (t0 t1 t2 t3 : byte) :
  map (fun i => os_randint os (drawn st + i)) [0; 1; 2; 3]
    = map byte_value [t0; t1; t2; t3] ->
  make_transaction_ID os st = (Return [t0; t1; t2; t3], after_draws 4 st).
Proof.
  intros [= H0 H1 H2 H3].
  unfold make_transaction_ID, make_transaction_ID_loop, bind, lift, ret,
    randint_0_255. cbn [drawn sent received].
  replace (drawn st) with (drawn st + 0) at 1 by lia.
  rewrite H0, struct_pack_B_byte.
  replace (S (drawn st)) with (drawn st + 1) by lia.
  rewrite H1, struct_pack_B_byte.
  replace (S (drawn st + 1)) with (drawn st + 2) by lia.
  rewrite H2, struct_pack_B_byte.
  replace (S (drawn st + 2)) with (drawn st + 3) by lia.
  rewrite H3, struct_pack_B_byte.
  unfold after_draws. simpl. do 2 f_equal. lia.
Qed.

(** C9: whatever the four random draws are, as long as each lies in
    0-255, the generator returns a byte string of exactly 4 bytes. *)
Theorem make_transaction_ID_length (os : OS) (st : state) :
  (forall n, (0 <= os_randint os n <= 255)%Z) ->
  exists tid st',
    make_transaction_ID os st = (Return tid, st') /\ length tid = 4.
Proof.
  intros Hr.
  destruct (make_transaction_ID_run os st) as (b0 & b1 & b2 & b3 & Hrun & _).
  { intros i _. apply Hr. }
  by exists [b0; b1; b2; b3], (after_draws 4 st).
Qed.

(** The generator run on draws that are all 200. *)
Lemma make_transaction_ID_length_witness :
  exists tid st',
    make_transaction_ID
      {| os_randint := fun _ => 200%Z;
         os_ioctl := fun _ _ => Raise (OSError None);
         os_bind := fun _ => Return tt;
         os_sendto := fun _ _ => Return tt;
         os_recv := fun _ => Raise socket_timeout |} initial
      = (Return tid, st') /\ length tid = 4.
Proof.
  apply make_transaction_ID_length. intros n. simpl. lia.
Defined.

(** Building the packet object: four draws in range and a MAC text that
    converts give the object whose packet is [_build] of its two fields. *)
Lemma discover_init (os : OS) (st : state) (mac : string) (m : bytes) :
  (forall i, i < 4 -> (0 <= os_randint os (drawn st + i) <= 255)%Z) ->
  DHCPDiscoverPacket.string_mac_to_packed mac = Return m ->
  exists t,
    length t = 4 /\
    DHCPDiscoverPacket.__init__ os mac st =
      (Return {| DHCPDiscoverPacket.transaction_ID := t;
                 DHCPDiscoverPacket.packed_mac := m;
                 DHCPDiscoverPacket.packet := DHCPDiscoverPacket._build t m |},
       after_draws 4 st).
Proof.
  intros Hr Hmac.
  destruct (make_transaction_ID_run os st Hr) as (b0 & b1 & b2 & b3 & Hrun & _).
  exists [b0; b1; b2; b3]. split; [done|].
  unfold DHCPDiscoverPacket.__init__, bind, lift, ret.
  by rewrite Hrun, Hmac.
Qed.

Lemma str_split_free (sep : ascii) (s : string) :
  str_free sep s = true -> str_split sep s = [s].
Proof.
  induction s as [|c s IH]; simpl; [done|].
  intros [Hc Hs]%andb_true_iff. apply negb_true_iff in Hc.
  by rewrite Hc, (IH Hs).
Qed.

Lemma str_split_free_sep (sep : ascii) (s rest : string) :
  str_free sep s = true ->
  str_split sep (s +:+ String sep rest) = s :: str_split sep rest.
Proof.
  induction s as [|c s IH]; simpl.
  - intros _. by rewrite Ascii.eqb_refl.
  - intros [Hc Hs]%andb_true_iff. apply negb_true_iff in Hc.
    by rewrite Hc, (IH Hs).
Qed.

(** Splitting undoes joining when no piece holds the separator. *)
Lemma str_split_join_sep (sep : ascii) (piece : string) (pieces : list string) :
  Forall (fun s => str_free sep s = true) (piece :: pieces) ->
  str_split sep (str_join_sep sep (piece :: pieces)) = piece :: pieces.
Proof.
  revert piece. induction pieces as [|p pieces IH]; intros piece Hfree.
  - apply Forall_cons in Hfree as [Hp _]. simpl. by apply str_split_free.
  - apply Forall_cons in Hfree as [Hp Hfree].
    change (str_join_sep sep (piece :: p :: pieces))
      with (piece +:+ String sep (str_join_sep sep (p :: pieces))).
    rewrite str_split_free_sep by done. by rewrite IH.
Qed.

Lemma str_free_hex_pair_upper (b : byte) : str_free ":" (hex_pair_upper b) = true.
Proof. destruct b; reflexivity. Qed.

Lemma int_16_hex_pair_upper (b : byte) :
  int_16 (hex_pair_upper b) = Return (byte_value b).
Proof. destruct b; reflexivity. Qed.

Lemma str_free_hex_pair (b : byte) : str_free ":" (hex_pair b) = true.
Proof. destruct b; reflexivity. Qed.

Lemma string_mac_to_packed_loop_map (f : byte -> string) (m packed : bytes) :
  (forall b, int_16 (f b) = Return (byte_value b)) ->
  DHCPDiscoverPacket.string_mac_to_packed_loop (map f m) packed =
  Return (packed ++ m).
Proof.
  intros Hint. revert packed. induction m as [|b m IH]; intros packed; simpl.
  - by rewrite app_nil_r.
  - rewrite Hint. simpl. rewrite struct_pack_B_byte. simpl.
    rewrite IH. by rewrite <- app_assoc.
Qed.

(** A non-empty byte string written as pieces joined by colons converts
    back to itself, when each piece is free of colons and reads as its
    byte. *)
Lemma string_mac_to_packed_joined (f : byte -> string) (b : byte) (m : bytes) :
  (forall b, str_free ":" (f b) = true) ->
  (forall b, int_16 (f b) = Return (byte_value b)) ->
  DHCPDiscoverPacket.string_mac_to_packed (str_join_sep ":" (map f (b :: m)))
  = Return (b :: m).
Proof.
  intros Hfree Hint. unfold DHCPDiscoverPacket.string_mac_to_packed.
  change (map f (b :: m)) with (f b :: map f m).
  rewrite str_split_join_sep.
  - change (f b :: map f m) with (map f (b :: m)).
    by apply string_mac_to_packed_loop_map.
  - change (f b :: map f m) with (map f (b :: m)).
    apply Forall_forall. intros s Hs.
    apply list_elem_of_fmap in Hs as (b' & -> & _). apply Hfree.
Qed.

(** C1: the layout of the DISCOVER datagram.  Take a 4-byte transaction
    ID [t] and six octets [m], and let [mac] be [m] given as
    colon-separated hexadecimal pairs, in lower or in upper case.  The
    conversion of [mac] returns exactly [m]; the packet object built from
    [mac], when the four random draws are the bytes of [t], holds the
    datagram [_build t m]; and that datagram has byte 0 = 01, bytes
    1-3 = 01 06 00, bytes 4-8 = [t], bytes 8-10 = 00 00, bytes
    10-12 = 80 00, bytes 12-28 zero, bytes 28-34 = [m], bytes 34-236
    zero, bytes 236-240 the magic cookie 63 82 53 63, bytes
    240-243 = 35 01 01, bytes 243-251 = 3d 06 and [m], bytes
    251-256 = 37 03 03 01 06, and byte 256 = ff. *)
Theorem discover_layout (t m : bytes) (mac : string) :
  length t = 4 ->
  length m = 6 ->
  mac = str_join_sep ":" (map hex_pair m) \/
  mac = str_join_sep ":" (map hex_pair_upper m) ->
  let p := DHCPDiscoverPacket._build t m in
  DHCPDiscoverPacket.string_mac_to_packed mac = Return m /\
  (forall (os : OS) (st : state),
     map (fun i => os_randint os (drawn st + i)) [0; 1; 2; 3]
       = map byte_value t ->
     DHCPDiscoverPacket.__init__ os mac st =
       (Return {| DHCPDiscoverPacket.transaction_ID := t;
                  DHCPDiscoverPacket.packed_mac := m;
                  DHCPDiscoverPacket.packet := p |},
        after_draws 4 st)) /\
  p !! 0 = Some x01 /\
  slice 1 4 p = [x01; x06; x00] /\
  slice 4 8 p = t /\
  slice 8 10 p = [x00; x00] /\
  slice 10 12 p = [x80; x00] /\
  slice 12 28 p = replicate 16 x00 /\
  slice 28 34 p = m /\
  slice 34 236 p = replicate 202 x00 /\
  slice 236 240 p = [x63; x82; x53; x63] /\
  slice 240 243 p = [x35; x01; x01] /\
  slice 243 251 p = [x3d; x06] ++ m /\
  slice 251 256 p = [x37; x03; x03; x01; x06] /\
  p !! 256 = Some xff.
Proof.
  intros Ht Hm Hmac.
  assert (Hconv : DHCPDiscoverPacket.string_mac_to_packed mac = Return m).
  { destruct m as [|b m]; [done|].
    destruct Hmac as [-> | ->].
    - apply string_mac_to_packed_joined;
        [apply str_free_hex_pair | apply int_16_hex_pair].
    - apply string_mac_to_packed_joined;
        [apply str_free_hex_pair_upper | apply int_16_hex_pair_upper]. }
  clear Hmac.
  destruct (list_length_4 t Ht) as (t0 & t1 & t2 & t3 & ->).
  destruct (list_length_6 m Hm) as (m0 & m1 & m2 & m3 & m4 & m5 & ->).
  cbv zeta. split; [done|]. split.
  - intros os st Hdraws.
    unfold DHCPDiscoverPacket.__init__, bind, lift, ret.
    by rewrite (make_transaction_ID_bytes os st t0 t1 t2 t3 Hdraws), Hconv.
  - repeat split; reflexivity.
Qed.

(** The layout at transaction 00 01 02 03 and MAC aa:bb:cc:dd:ee:ff. *)
Lemma discover_layout_witness :
  let p := DHCPDiscoverPacket._build [x00; x01; x02; x03]
             [xaa; xbb; xcc; xdd; xee; xff] in
  DHCPDiscoverPacket.string_mac_to_packed "aa:bb:cc:dd:ee:ff"
    = Return [xaa; xbb; xcc; xdd; xee; xff] /\
  DHCPDiscoverPacket.__init__ os_counting "aa:bb:cc:dd:ee:ff" initial =
    (Return {| DHCPDiscoverPacket.transaction_ID := [x00; x01; x02; x03];
               DHCPDiscoverPacket.packed_mac := [xaa; xbb; xcc; xdd; xee; xff];
               DHCPDiscoverPacket.packet := p |},
     after_draws 4 initial) /\
  slice 28 34 p = [xaa; xbb; xcc; xdd; xee; xff] /\
  slice 243 251 p = [x3d; x06; xaa; xbb; xcc; xdd; xee; xff].
Proof.
  pose proof (discover_layout [x00; x01; x02; x03]
                [xaa; xbb; xcc; xdd; xee; xff] "aa:bb:cc:dd:ee:ff"
                eq_refl eq_refl (or_introl eq_refl)) as H.
  cbv zeta in H. cbv zeta.
  destruct H
    as (Hconv & Hinit & _ & _ & _ & _ & _ & _ & H28 & _ & _ & _ & H243 & _).
  split; [exact Hconv|].
  split; [|split; [exact H28 | exact H243]].
  apply (Hinit os_counting initial). reflexivity.
Defined.

(** C2 as stated fails: the datagram for transaction 01 02 03 04 and MAC
    aa:bb:cc:dd:ee:ff is not 300 bytes long. *)
Lemma discover_length_300_counterexample :
  DHCPDiscoverPacket.string_mac_to_packed "aa:bb:cc:dd:ee:ff"
    = Return [xaa; xbb; xcc; xdd; xee; xff] /\
  length (DHCPDiscoverPacket._build [x01; x02; x03; x04]
            [xaa; xbb; xcc; xdd; xee; xff]) <> 300.
Proof. split; [reflexivity|]. vm_compute. lia. Qed.

(** C2, amended: for every 4-byte transaction ID and every 6-byte MAC
    address the encoded DISCOVER datagram is exactly 257 bytes long; and
    a packet object built from a MAC text of six octets holds such a
    datagram. *)
Theorem discover_length (t m : bytes) :
  length t = 4 -> length m = 6 ->
  length (DHCPDiscoverPacket._build t m) = 257 /\
  (forall (os : OS) (st : state) (mac : string),
     (forall n, (0 <= os_randint os n <= 255)%Z) ->
     DHCPDiscoverPacket.string_mac_to_packed mac = Return m ->
     exists p st',
       DHCPDiscoverPacket.__init__ os mac st = (Return p, st') /\
       length (DHCPDiscoverPacket.packet p) = 257).
Proof.
  intros Ht Hm. split.
  - rewrite length_build. lia.
  - intros os st mac Hr Hmac.
    destruct (discover_init os st mac m) as (t' & Ht' & Hinit); [|done|].
    { intros i _. apply Hr. }
    eexists _, _. split; [exact Hinit|]. cbn [DHCPDiscoverPacket.packet].
    rewrite length_build. lia.
Qed.

(** The length at transaction 01 02 03 04 and MAC aa:bb:cc:dd:ee:ff, and
    of the packet object built from that MAC text. *)
Lemma discover_length_witness :
  length (DHCPDiscoverPacket._build [x01; x02; x03; x04]
            [xaa; xbb; xcc; xdd; xee; xff]) = 257 /\
  exists p st',
    DHCPDiscoverPacket.__init__ os_counting "aa:bb:cc:dd:ee:ff" initial
      = (Return p, st') /\
    length (DHCPDiscoverPacket.packet p) = 257.
Proof.
  destruct (discover_length [x01; x02; x03; x04]
              [xaa; xbb; xcc; xdd; xee; xff] eq_refl eq_refl) as [H1 H2].
  split; [exact H1|].
  apply H2; [|reflexivity].
  intros n. unfold os_counting. cbn [os_randint].
  pose proof (Z.mod_pos_bound (Z.of_nat n) 256). lia.
Defined.

(** ** The listening loop *)

Lemma after_recv_after_recv (n k : nat) (st : state) :
  after_recv n (after_recv k st) = after_recv (k + n) st.
Proof. unfold after_recv. simpl. f_equal. lia. Qed.

Lemma offer_init_take (n : nat) (d : bytes) :
  249 <= n -> DHCPOfferPacket.__init__ (take n d) = DHCPOfferPacket.__init__ d.
Proof.
  intros Hn. unfold DHCPOfferPacket.__init__.
  by rewrite !slice_take by lia.
Qed.

Lemma offer_init_raises (data : bytes) (e : exception) :
  DHCPOfferPacket.__init__ data = Raise e ->
  length data < 249 /\ e = OSError None.
Proof.
  intros H. destruct (decide (249 <= length data)) as [Hl|Hl].
  - destruct (offer_init_long data Hl) as (a & b & c & d & _ & Hi). congruence.
  - rewrite offer_init_short in H by lia. split; [lia | congruence].
Qed.

Lemma elem_of_offered (t d : bytes) (s : string) :
  s ∈ offered t d <->
  slice 4 8 d = t /\ inet_ntoa (slice 245 249 d) = Return s.
Proof.
  unfold offered, DHCPOfferPacket.__init__.
  destruct (inet_ntoa (slice 245 249 d)) as [s'|e]; simpl.
  - case_bool_decide as Ht.
    + rewrite elem_of_singleton. split; [by intros -> | by intros [_ [= ->]]].
    + rewrite elem_of_empty. split; [done | by intros [? _]].
  - rewrite elem_of_empty. split; [done | by intros [_ ?]].
Qed.

Lemma elem_of_offers (t : bytes) (ds : list bytes) (s : string) :
  s ∈ offers t ds <->
  exists d, d ∈ ds /\ slice 4 8 d = t /\ inet_ntoa (slice 245 249 d) = Return s.
Proof.
  unfold offers. rewrite elem_of_union_list. split.
  - intros (X & HX & Hs). apply list_elem_of_fmap in HX as (d & -> & Hd).
    exists d. split; [done|]. by apply elem_of_offered.
  - intros (d & Hd & Ht & Hs). exists (offered t d). split.
    + apply list_elem_of_fmap. by exists d.
    + by apply elem_of_offered.
Qed.

(** One pass over a datagram that decodes: the pass returns, and the set
    grows by what the datagram offers for the transaction. *)
Lemma receive_offers_body_datagram (os : OS) (t : bytes) (servers : gset string)
    (st : state) (d : bytes) :
  os_recv os (received st) = Return d -> 249 <= length d ->
  receive_offers_body os t servers st =
    (Return (offered t d ∪ servers), after_recv 1 st).
Proof.
  intros Hrecv Hlen.
  unfold receive_offers_body, bind, sock_recv, lift, ret. rewrite Hrecv.
  rewrite offer_init_take by lia. unfold offered.
  destruct (offer_init_long d Hlen) as (a & b & c & d' & _ & ->).
  cbn [DHCPOfferPacket.transaction_ID DHCPOfferPacket.dhcp_server_ID].
  unfold after_recv.
  replace (received st + 1) with (S (received st)) by lia.
  case_bool_decide; [done|]. by rewrite (left_id_L ∅ (∪)).
Qed.

Lemma receive_offers_body_short (os : OS) (t : bytes) (servers : gset string)
    (st : state) (d : bytes) :
  os_recv os (received st) = Return d -> length d < 249 ->
  receive_offers_body os t servers st = (Raise (OSError None), after_recv 1 st).
Proof.
  intros Hrecv Hlen.
  unfold receive_offers_body, bind, sock_recv, lift, ret. rewrite Hrecv.
  rewrite offer_init_short by (rewrite length_take; lia).
  unfold after_recv. by replace (received st + 1) with (S (received st)) by lia.
Qed.

Lemma receive_offers_body_raise (os : OS) (t : bytes) (servers : gset string)
    (st : state) (e : exception) :
  os_recv os (received st) = Raise e ->
  receive_offers_body os t servers st = (Raise e, after_recv 1 st).
Proof.
  intros Hrecv.
  unfold receive_offers_body, bind, sock_recv, lift, ret. rewrite Hrecv.
  unfold after_recv. by replace (received st + 1) with (S (received st)) by lia.
Qed.

Lemma delivers_cons (os : OS) (st : state) (d : bytes) (ds : list bytes) :
  delivers os st (d :: ds) ->
  os_recv os (received st) = Return d /\ delivers os (after_recv 1 st) ds.
Proof.
  intros H. split.
  - rewrite <- (Nat.add_0_r (received st)). by apply H.
  - intros i d' Hi. simpl.
    replace (received st + 1 + i) with (received st + S i) by lia. by apply H.
Qed.

(** Over datagrams that all decode, the loop keeps going; it ends at the
    first read that raises, with everything offered so far. *)
Lemma receive_offers_loop_run (os : OS) (t : bytes) (e : exception)
    (ds : list bytes) :
  forall (st : state) (servers : gset string) (fuel : nat),
    delivers os st ds ->
    Forall (fun d => 249 <= length d) ds ->
    os_recv os (received st + length ds) = Raise e ->
    length ds < fuel ->
    receive_offers_loop os fuel t servers st =
      Some (offers t ds ∪ servers, e, after_recv (S (length ds)) st).
Proof.
  induction ds as [|d ds IH]; intros st servers fuel Hdel Hlong Hend Hfuel;
    (destruct fuel as [|fuel]; [simpl in Hfuel; lia|]); simpl.
  - rewrite Nat.add_0_r in Hend.
    rewrite (receive_offers_body_raise _ _ _ _ _ Hend).
    unfold offers. simpl. by rewrite (left_id_L ∅ (∪)).
  - apply delivers_cons in Hdel as [Hd Hdel].
    apply Forall_cons in Hlong as [Hl Hlong].
    rewrite (receive_offers_body_datagram _ _ _ _ _ Hd Hl).
    rewrite (IH (after_recv 1 st)); try done.
    + rewrite after_recv_after_recv. do 3 f_equal.
      unfold offers. simpl.
      by rewrite (assoc_L (∪)), (comm_L (∪) (⋃ _) (offered t d)).
    + simpl in *. by replace (received st + 1 + length ds)
        with (received st + S (length ds)) by lia.
    + simpl in Hfuel. lia.
Qed.

(** While datagrams that decode keep arriving, the loop is still running. *)
Lemma receive_offers_loop_running (os : OS) (t : bytes) (ds : list bytes) :
  forall (st : state) (servers : gset string) (fuel : nat),
    delivers os st ds ->
    Forall (fun d => 249 <= length d) ds ->
    fuel <= length ds ->
    receive_offers_loop os fuel t servers st = None.
Proof.
  induction ds as [|d ds IH]; intros st servers fuel Hdel Hlong Hfuel;
    (destruct fuel as [|fuel]; [done|]); simpl in *; [lia|].
  apply delivers_cons in Hdel as [Hd Hdel].
  apply Forall_cons in Hlong as [Hl Hlong].
  rewrite (receive_offers_body_datagram _ _ _ _ _ Hd Hl).
  apply IH; try done. lia.
Qed.

(** Whenever the loop ends, its last read either raised the exception
    that ended it or delivered a datagram too short to decode. *)
Lemma receive_offers_loop_end (os : OS) (t : bytes) (fuel : nat) :
  forall (st st' : state) (servers servers' : gset string) (e : exception),
    receive_offers_loop os fuel t servers st = Some (servers', e, st') ->
    exists k,
      received st <= k /\ received st' = S k /\
      (os_recv os k = Raise e \/
       exists d, os_recv os k = Return d /\ length d < 249 /\ e = OSError None).
Proof.
  induction fuel as [|fuel IH]; intros st st' servers servers' e; simpl; [done|].
  destruct (os_recv os (received st)) as [d|e0] eqn:Hrecv.
  - destruct (decide (249 <= length d)) as [Hl|Hl].
    + rewrite (receive_offers_body_datagram _ _ _ _ _ Hrecv Hl).
      intros H. apply IH in H as (k & Hk & Hst' & Hcase).
      exists k. simpl in Hk. split; [lia|]. done.
    + rewrite (receive_offers_body_short _ _ _ _ _ Hrecv) by lia.
      intros [= <- <- <-]. exists (received st). simpl.
      split; [lia|]. split; [lia|]. right. exists d. split; [done|]. split; [lia|done].
  - rewrite (receive_offers_body_raise _ _ _ _ _ Hrecv).
    intros [= <- <- <-]. exists (received st). simpl.
    split; [lia|]. split; [lia|]. by left.
Qed.

(** A read that raises a timeout, after datagrams that all decode, makes
    the phase return what those datagrams offer. *)
Lemma receive_offers_run_timeout (os : OS) (t : bytes) (st : state)
    (ds : list bytes) (e : exception) (fuel : nat) :
  os_bind os (EmptyString, BOOTP_CLIENT_PORT) = Return tt ->
  delivers os st ds ->
  Forall (fun d => 249 <= length d) ds ->
  os_recv os (received st + length ds) = Raise e ->
  is_socket_timeout e = true ->
  length ds < fuel ->
  receive_offers os fuel t st =
    Some (Return (offers t ds), after_recv (S (length ds)) st).
Proof.
  intros Hbind Hdel Hlong Hend He Hfuel.
  unfold receive_offers, sock_bind, lift. rewrite Hbind.
  rewrite (receive_offers_loop_run os t e ds) by done.
  by rewrite He, (right_id_L ∅ (∪)).
Qed.

(** Any other exception raised by a read leaves the phase as it is. *)
Lemma receive_offers_run_error (os : OS) (t : bytes) (st : state)
    (ds : list bytes) (e : exception) (fuel : nat) :
  os_bind os (EmptyString, BOOTP_CLIENT_PORT) = Return tt ->
  delivers os st ds ->
  Forall (fun d => 249 <= length d) ds ->
  os_recv os (received st + length ds) = Raise e ->
  is_socket_timeout e = false ->
  length ds < fuel ->
  receive_offers os fuel t st =
    Some (Raise e, after_recv (S (length ds)) st).
Proof.
  intros Hbind Hdel Hlong Hend He Hfuel.
  unfold receive_offers, sock_bind, lift. rewrite Hbind.
  rewrite (receive_offers_loop_run os t e ds) by done.
  by rewrite He.
Qed.

Lemma receive_offers_run (os : OS) (t : bytes) (st : state) (ds : list bytes)
    (fuel : nat) :
  os_bind os (EmptyString, BOOTP_CLIENT_PORT) = Return tt ->
  delivers os st ds ->
  Forall (fun d => 249 <= length d) ds ->
  os_recv os (received st + length ds) = Raise socket_timeout ->
  length ds < fuel ->
  receive_offers os fuel t st =
    Some (Return (offers t ds), after_recv (S (length ds)) st).
Proof.
  intros Hbind Hdel Hlong Hend Hfuel.
  by apply (receive_offers_run_timeout os t st ds socket_timeout).
Qed.

(** C3: when the datagrams [ds], each of at least 249 bytes, arrive and
    then a read times out, the offer-collection phase returns a set that
    holds exactly the server addresses decoded from the datagrams whose
    bytes 4-8 equal the transaction ID sent; an address is in the set once
    however many datagrams carried it, and a datagram with other bytes at
    4-8 adds nothing. *)
Theorem receive_offers_collects (os : OS) (t : bytes) (st : state)
    (ds : list bytes) (fuel : nat) :
  os_bind os (EmptyString, BOOTP_CLIENT_PORT) = Return tt ->
  delivers os st ds ->
  Forall (fun d => 249 <= length d) ds ->
  os_recv os (received st + length ds) = Raise socket_timeout ->
  length ds < fuel ->
  exists servers : gset string,
    receive_offers os fuel t st =
      Some (Return servers, after_recv (S (length ds)) st) /\
    (forall s : string,
       s ∈ servers <->
       exists d, d ∈ ds /\ slice 4 8 d = t /\
                 inet_ntoa (slice 245 249 d) = Return s) /\
    NoDup (elements servers) /\
    servers = offers t (filter (fun d => slice 4 8 d = t) ds).
Proof.
  intros Hbind Hdel Hlong Hend Hfuel.
  exists (offers t ds). split; [by apply receive_offers_run|].
  split; [apply elem_of_offers|]. split; [apply NoDup_elements|].
  apply set_eq. intros s. rewrite !elem_of_offers. split.
  - intros (d & Hd & Ht & Hs). exists d. split; [|done].
    apply list_elem_of_filter. done.
  - intros (d & Hd & Ht & Hs). exists d. split; [|done].
    by apply list_elem_of_filter in Hd as [_ Hd].
Qed.

(** The collection over [four_offers] for transaction 01 02 03 04. *)
Lemma receive_offers_collects_witness :
  exists servers : gset string,
    receive_offers (os_lan four_offers) 5 [x01; x02; x03; x04] initial =
      Some (Return servers, after_recv 5 initial) /\
    (forall s : string,
       s ∈ servers <->
       exists d,
         d ∈ four_offers /\ slice 4 8 d = [x01; x02; x03; x04] /\
         inet_ntoa (slice 245 249 d) = Return s) /\
    NoDup (elements servers) /\
    servers =
      offers [x01; x02; x03; x04]
        (filter (fun d => slice 4 8 d = [x01; x02; x03; x04]) four_offers).
Proof.
  apply (receive_offers_collects (os_lan four_offers) [x01; x02; x03; x04]
           initial four_offers 5).
  - reflexivity.
  - intros i d Hi. cbn [os_lan os_recv initial received Nat.add]. by rewrite Hi.
  - repeat constructor; vm_compute; lia.
  - reflexivity.
  - simpl. lia.
Defined.

(** Over [four_offers] the result is the two servers 10.0.0.1, 10.0.0.2. *)
Example receive_offers_four :
  receive_offers (os_lan four_offers) 5 [x01; x02; x03; x04] initial =
  Some (Return {[ "10.0.0.1"; "10.0.0.2" ]}, after_recv 5 initial).
Proof. vm_compute. reflexivity. Qed.

(** Two offers from 10.0.0.1 count once. *)
Example receive_offers_duplicate :
  receive_offers
    (os_lan [offer_datagram [x01; x02; x03; x04] [x0a; x00; x00; x01];
             offer_datagram [x01; x02; x03; x04] [x0a; x00; x00; x01]])
    3 [x01; x02; x03; x04] initial =
  Some (Return {[ "10.0.0.1" ]}, after_recv 3 initial).
Proof. vm_compute. reflexivity. Qed.

(** An offer for another transaction is ignored. *)
Example receive_offers_mismatch :
  receive_offers
    (os_lan [offer_datagram [x09; x09; x09; x09] [x0a; x00; x00; x01];
             offer_datagram [x01; x02; x03; x04] [x0a; x00; x00; x02]])
    3 [x01; x02; x03; x04] initial =
  Some (Return {[ "10.0.0.2" ]}, after_recv 3 initial).
Proof. vm_compute. reflexivity. Qed.

(** C6 as stated fails: a 248-byte datagram whose transaction-ID field
    differs from the one sent is not discarded; decoding it raises. *)
Lemma mismatched_datagram_counterexample :
  slice 4 8 (replicate 248 x00) <> [x01; x02; x03; x04] /\
  receive_offers_body (os_lan [replicate 248 x00]) [x01; x02; x03; x04]
    ∅ initial = (Raise (OSError None), after_recv 1 initial).
Proof. split; [discriminate|]. vm_compute. reflexivity. Qed.

(** C6, amended: a received datagram of at least 249 bytes whose
    transaction-ID field differs from the transaction ID sent is discarded
    silently: the pass over it raises nothing and leaves the accumulated
    set unchanged, and the loop goes on to the next read. *)
Theorem mismatched_datagram_discarded (os : OS) (t : bytes)
    (servers : gset string) (st : state) (d : bytes) :
  os_recv os (received st) = Return d ->
  249 <= length d ->
  slice 4 8 d <> t ->
  receive_offers_body os t servers st = (Return servers, after_recv 1 st) /\
  (forall fuel,
     receive_offers_loop os (S fuel) t servers st =
     receive_offers_loop os fuel t servers (after_recv 1 st)).
Proof.
  intros Hrecv Hlen Hne.
  assert (Hbody : receive_offers_body os t servers st
                  = (Return servers, after_recv 1 st)).
  { rewrite (receive_offers_body_datagram _ _ _ _ _ Hrecv Hlen).
    do 2 f_equal. unfold offered.
    destruct (offer_init_long d Hlen) as (a & b & c & d' & _ & ->).
    cbn [DHCPOfferPacket.transaction_ID].
    rewrite bool_decide_eq_false_2 by done. by rewrite (left_id_L ∅ (∪)). }
  split; [done|]. intros fuel. simpl. by rewrite Hbody.
Qed.

(** A foreign 249-byte offer read into a set that already holds one server. *)
Lemma mismatched_datagram_discarded_witness :
  receive_offers_body
    (os_lan [offer_datagram [x09; x09; x09; x09] [x0a; x00; x00; x09]])
    [x01; x02; x03; x04] {[ "10.0.0.1" ]} initial =
  (Return {[ "10.0.0.1" ]}, after_recv 1 initial).
Proof.
  apply (mismatched_datagram_discarded
           (os_lan [offer_datagram [x09; x09; x09; x09] [x0a; x00; x00; x09]])
           [x01; x02; x03; x04] {[ "10.0.0.1" ]} initial
           (offer_datagram [x09; x09; x09; x09] [x0a; x00; x00; x09])).
  - reflexivity.
  - vm_compute. lia.
  - discriminate.
Defined.

(** C7 as stated fails: after a 248-byte datagram the listening phase
    ends at once, with an error rather than its accumulated set, although
    no read has timed out; whatever the fuel, it never returns a set. *)
Lemma receive_offers_timeout_counterexample :
  receive_offers (os_lan [replicate 248 x00]) 2 [x01; x02; x03; x04] initial
    = Some (Raise (OSError None), after_recv 1 initial) /\
  os_recv (os_lan [replicate 248 x00]) 0 <> Raise socket_timeout /\
  forall fuel servers st',
    receive_offers (os_lan [replicate 248 x00]) fuel [x01; x02; x03; x04]
      initial <> Some (Return servers, st').
Proof.
  split; [vm_compute; reflexivity|]. split; [discriminate|].
  intros [|fuel] servers st'; [discriminate|].
  unfold receive_offers, sock_bind, lift.
  cbn [os_lan os_bind receive_offers_loop].
  rewrite (receive_offers_body_short _ _ _ _ (replicate 248 x00));
    [discriminate | reflexivity | rewrite length_replicate; lia].
Qed.

Lemma receive_offers_loop_forever (os : OS) (t : bytes) :
  (forall n, exists d, os_recv os n = Return d /\ 249 <= length d) ->
  forall (fuel : nat) (st : state) (servers : gset string),
    receive_offers_loop os fuel t servers st = None.
Proof.
  intros Hall. induction fuel as [|fuel IH]; intros st servers; simpl; [done|].
  destruct (Hall (received st)) as (d & Hd & Hl).
  rewrite (receive_offers_body_datagram _ _ _ _ _ Hd Hl). apply IH.
Qed.

(** C7, amended: the listening phase returns if and only if a read times
    out, that is, raises an exception of class [socket.timeout] (the
    socket module's own, or an [OSError] with errno ETIMEDOUT).  When
    datagrams of at least 249 bytes arrive and then a read times out, it
    returns its accumulated set right after that read, and is still
    listening after any smaller number of reads: receiving such a
    datagram, matching or not, never ends the loop.  Whenever it returns a
    set, its last read timed out.  If such datagrams never stop arriving,
    it never ends. *)
Theorem receive_offers_ends_at_timeout (os : OS) (t : bytes) (st : state) :
  os_bind os (EmptyString, BOOTP_CLIENT_PORT) = Return tt ->
  (forall (ds : list bytes) (e : exception),
     delivers os st ds ->
     Forall (fun d => 249 <= length d) ds ->
     os_recv os (received st + length ds) = Raise e ->
     is_socket_timeout e = true ->
     (forall fuel, length ds < fuel ->
        receive_offers os fuel t st =
          Some (Return (offers t ds), after_recv (S (length ds)) st)) /\
     (forall fuel, fuel <= length ds -> receive_offers os fuel t st = None)) /\
  (forall fuel servers st',
     receive_offers os fuel t st = Some (Return servers, st') ->
     exists k e,
       received st <= k /\ received st' = S k /\
       os_recv os k = Raise e /\ is_socket_timeout e = true) /\
  ((forall n, exists d, os_recv os n = Return d /\ 249 <= length d) ->
   forall fuel, receive_offers os fuel t st = None).
Proof.
  intros Hbind. split; [|split].
  - intros ds e Hdel Hlong Hend He. split; intros fuel Hfuel.
    + by apply (receive_offers_run_timeout os t st ds e).
    + unfold receive_offers, sock_bind, lift. rewrite Hbind.
      by rewrite (receive_offers_loop_running os t ds).
  - intros fuel servers st'.
    unfold receive_offers, sock_bind, lift. rewrite Hbind.
    destruct (receive_offers_loop os fuel t ∅ st) as [[[servers' e] st'']|]
      eqn:Hloop; [|done].
    apply receive_offers_loop_end in Hloop as (k & Hk & Hst & Hcase).
    destruct (is_socket_timeout e) eqn:He; [|done].
    intros [= <- <-]. exists k, e. split; [done|]. split; [done|].
    destruct Hcase as [Hr | (d & _ & _ & ->)]; [done | discriminate].
  - intros Hall fuel.
    unfold receive_offers, sock_bind, lift. rewrite Hbind.
    by rewrite (receive_offers_loop_forever os t Hall).
Qed.

(** Over [four_offers] the phase returns after the fifth read, the one
    that times out, and is still listening after four; it returns the
    same set when that read fails with errno ETIMEDOUT instead. *)
Lemma receive_offers_ends_at_timeout_witness :
  receive_offers (os_lan four_offers) 5 [x01; x02; x03; x04] initial =
    Some (Return (offers [x01; x02; x03; x04] four_offers),
          after_recv 5 initial) /\
  receive_offers (os_lan four_offers) 4 [x01; x02; x03; x04] initial = None /\
  receive_offers (os_lan_then four_offers (OSError (Some ETIMEDOUT))) 5
    [x01; x02; x03; x04] initial =
    Some (Return (offers [x01; x02; x03; x04] four_offers),
          after_recv 5 initial).
Proof.
  destruct (receive_offers_ends_at_timeout (os_lan four_offers)
              [x01; x02; x03; x04] initial eq_refl) as (H & _ & _).
  destruct (H four_offers socket_timeout) as [Hret Hrun].
  - intros i d Hi. cbn [os_lan os_recv initial received Nat.add]. by rewrite Hi.
  - repeat constructor; vm_compute; lia.
  - reflexivity.
  - reflexivity.
  - destruct (receive_offers_ends_at_timeout
                (os_lan_then four_offers (OSError (Some ETIMEDOUT)))
                [x01; x02; x03; x04] initial eq_refl) as (H' & _ & _).
    destruct (H' four_offers (OSError (Some ETIMEDOUT))) as [Hret' _].
    + intros i d Hi. cbn [os_lan_then os_recv initial received Nat.add].
      by rewrite Hi.
    + repeat constructor; vm_compute; lia.
    + reflexivity.
    + reflexivity.
    + split; [|split]; [apply (Hret 5) | apply (Hrun 4) | apply (Hret' 5)];
        simpl; lia.
Defined.

(** ** The per-interface runner *)

(** C4: when the probe fails with errno EADDRNOTAVAIL or with errno ENODEV,
    [probe_interface] returns the empty set and raises nothing; every
    other failure of the probe is raised again unchanged; and a successful
    probe's result set is returned unchanged. *)
Theorem probe_interface_outcomes (os : OS) (fuel : nat) (interface : string)
    (st st' : state) :
  (probe_dhcp os fuel interface st
     = Some (Raise (OSError (Some EADDRNOTAVAIL)), st') ->
   probe_interface os fuel interface st
     = Some (Return ∅, [log_debug interface], st')) /\
  (probe_dhcp os fuel interface st
     = Some (Raise (OSError (Some ENODEV)), st') ->
   probe_interface os fuel interface st
     = Some (Return ∅, [log_error interface], st')) /\
  (forall e : exception,
     probe_dhcp os fuel interface st = Some (Raise e, st') ->
     e <> OSError (Some EADDRNOTAVAIL) -> e <> OSError (Some ENODEV) ->
     probe_interface os fuel interface st = Some (Raise e, [], st')) /\
  (forall servers : gset string,
     probe_dhcp os fuel interface st = Some (Return servers, st') ->
     probe_interface os fuel interface st = Some (Return servers, [], st')).
Proof.
  unfold probe_interface. repeat split.
  - intros ->. reflexivity.
  - intros ->. reflexivity.
  - intros e -> Hna Hnd.
    destruct e as [[n|]| | | |]; try reflexivity.
    cbn [is_IOError errno_of].
    rewrite !bool_decide_eq_false_2; [done| |]; congruence.
  - intros servers ->. reflexivity.
Qed.

(** The four outcomes on concrete hosts: an interface without address, a
    missing interface, a bind refused by the system, and a quiet network
    with two servers. *)
Lemma probe_interface_outcomes_witness :
  probe_interface (os_ioctl_fails EADDRNOTAVAIL) 1 "eth0" initial
    = Some (Return ∅, [log_debug "eth0"], initial) /\
  probe_interface (os_ioctl_fails ENODEV) 1 "eth0" initial
    = Some (Return ∅, [log_error "eth0"], initial) /\
  probe_interface (os_ioctl_fails EACCES) 1 "eth0" initial
    = Some (Raise (OSError (Some EACCES)), [], initial) /\
  exists st',
    probe_interface (os_lan []) 1 "eth0" initial = Some (Return ∅, [], st').
Proof.
  split; [|split; [|split]].
  - apply (proj1 (probe_interface_outcomes (os_ioctl_fails EADDRNOTAVAIL)
                    1 "eth0" initial initial)).
    reflexivity.
  - apply (proj1 (proj2 (probe_interface_outcomes (os_ioctl_fails ENODEV)
                           1 "eth0" initial initial))).
    reflexivity.
  - apply (proj1 (proj2 (proj2 (probe_interface_outcomes
                                  (os_ioctl_fails EACCES) 1 "eth0"
                                  initial initial)))).
    + reflexivity.
    + discriminate.
    + discriminate.
  - eexists.
    apply (proj2 (proj2 (proj2 (probe_interface_outcomes (os_lan [])
                                  1 "eth0" initial _)))).
    vm_compute. reflexivity.
Defined.

(** ** Whole runs on a concrete host *)

(** On the host [os_lan] the request phase resolves eth0, draws the
    transaction 00 01 02 03 and sends one datagram, to the broadcast
    address on the server port. *)
Example request_dhcp_eth0 :
  request_dhcp (os_lan []) "eth0" initial =
  (Return [x00; x01; x02; x03],
   {| drawn := 4;
      sent := [(DHCPDiscoverPacket._build [x00; x01; x02; x03]
                  [xaa; xbb; xcc; xdd; xee; xff],
                ("<broadcast>"%string, BOOTP_SERVER_PORT))];
      received := 0 |}).
Proof. vm_compute. reflexivity. Qed.

(** A probe that hears two offers for its transaction, from 10.0.0.1 and
    10.0.0.2, and one for a foreign transaction. *)
Example probe_interface_eth0 :
  exists st',
    probe_interface
      (os_lan [offer_datagram [x00; x01; x02; x03] [x0a; x00; x00; x01];
               offer_datagram [x09; x09; x09; x09] [x0a; x00; x00; x09];
               offer_datagram [x00; x01; x02; x03] [x0a; x00; x00; x02]])
      4 "eth0" initial =
    Some (Return {[ "10.0.0.1"; "10.0.0.2" ]}, [], st').
Proof. eexists. vm_compute. reflexivity. Qed.

(** On this host an interface name outside ASCII fails before any
    query is made, and the failure is not an [IOError], so the runner
    lets it through. *)
Example probe_interface_non_ascii :
  probe_interface (os_lan []) 4 (String (ascii_of_N 233) "th0") initial =
  Some (Raise UnicodeEncodeError, [], initial).
Proof. vm_compute. reflexivity. Qed.

(** * Further properties of the code *)

(** ** MAC address text *)

Lemma struct_pack_B_Return (n : Z) (bs : bytes) :
  struct_pack_B n = Return bs -> exists b, bs = [b] /\ byte_value b = n.
Proof.
  unfold struct_pack_B.
  destruct ((0 <=? n)%Z && (n <=? 255)%Z) eqn:Hrange; [|done].
  apply andb_true_iff in Hrange as [H0 H255].
  apply Z.leb_le in H0. apply Z.leb_le in H255.
  destruct (Byte.of_N (Z.to_N n)) as [b|] eqn:Hb; [|done].
  intros [= <-]. exists b. split; [done|]. unfold byte_value.
  rewrite (Byte.to_of_N _ Hb). lia.
Qed.

Lemma string_mac_to_packed_loop_Return (pieces : list string) :
  forall packed m : bytes,
    DHCPDiscoverPacket.string_mac_to_packed_loop pieces packed = Return m <->
    exists m', m = packed ++ m' /\
      Forall2 (fun piece b => int_16 piece = Return (byte_value b)) pieces m'.
Proof.
  induction pieces as [|piece pieces IH]; intros packed m; simpl.
  - split.
    + intros [= <-]. exists []. by rewrite app_nil_r.
    + intros (m' & -> & Hall). apply Forall2_nil_inv_l in Hall as ->.
      by rewrite app_nil_r.
  - split.
    + destruct (int_16 piece) as [z|e] eqn:Hint; simpl; [|done].
      destruct (struct_pack_B z) as [bs|e] eqn:Hpack; simpl; [|done].
      apply struct_pack_B_Return in Hpack as (b & -> & Hb).
      intros (m' & -> & Hall)%IH. exists (b :: m'). split.
      * by rewrite <- app_assoc.
      * constructor; [by rewrite Hb | done].
    + intros (m' & -> & Hall).
      apply Forall2_cons_inv_l in Hall as (b & m'' & Hint & Hall & ->).
      rewrite Hint. simpl. rewrite struct_pack_B_byte. simpl.
      apply IH. exists m''. split; [|done]. by rewrite <- app_assoc.
Qed.

(** X2: [string_mac_to_packed] succeeds exactly when every piece between
    colons is accepted by [int(piece, 16)] with a value that fits a byte,
    and it then returns those values, one byte per piece.  It never
    returns an empty byte string, and it does not require six pieces. *)
Theorem string_mac_to_packed_pieces (mac : string) (m : bytes) :
  DHCPDiscoverPacket.string_mac_to_packed mac = Return m <->
  Forall2 (fun piece b => int_16 piece = Return (byte_value b))
    (str_split ":" mac) m /\
  length m = length (str_split ":" mac) /\ m <> [].
Proof.
  unfold DHCPDiscoverPacket.string_mac_to_packed.
  rewrite string_mac_to_packed_loop_Return. split.
  - intros (m' & -> & Hall). simpl. split; [done|].
    split; [symmetry; by eapply Forall2_length|].
    intros ->. apply Forall2_nil_inv_r in Hall.
    destruct mac as [|c mac]; simpl in Hall; [done|].
    destruct (Ascii.eqb c ":"); [done|].
    by destruct (str_split ":" mac).
  - intros (Hall & _ & _). by exists m.
Qed.

(** A two-octet text converts: six pieces are not required. *)
Lemma string_mac_to_packed_pieces_witness :
  DHCPDiscoverPacket.string_mac_to_packed "aa:0B" = Return [xaa; x0b].
Proof.
  apply (proj2 (string_mac_to_packed_pieces "aa:0B" [xaa; x0b])).
  split; [|split; [reflexivity | discriminate]].
  repeat constructor.
Defined.

(** X3: the text form named in the docstring, AA:BB:CC:DD:EE:FF, converts
    back to its bytes: any non-empty byte string written as upper-case
    pairs of hexadecimal digits joined by colons is recovered exactly. *)
Theorem string_mac_to_packed_uppercase (b : byte) (m : bytes) :
  DHCPDiscoverPacket.string_mac_to_packed
    (str_join_sep ":" (map hex_pair_upper (b :: m))) = Return (b :: m).
Proof.
  unfold DHCPDiscoverPacket.string_mac_to_packed.
  change (map hex_pair_upper (b :: m))
    with (hex_pair_upper b :: map hex_pair_upper m).
  rewrite str_split_join_sep.
  - apply string_mac_to_packed_loop_Return. exists (b :: m). split; [done|].
    change (hex_pair_upper b :: map hex_pair_upper m)
      with (map hex_pair_upper (b :: m)).
    induction (b :: m) as [|b' m' IH]; simpl; constructor; [|done].
    apply int_16_hex_pair_upper.
  - change (hex_pair_upper b :: map hex_pair_upper m)
      with (map hex_pair_upper (b :: m)).
    apply Forall_forall. intros s Hs.
    apply list_elem_of_fmap in Hs as (b' & -> & _).
    apply str_free_hex_pair_upper.
Qed.

(** ** Interface queries *)

Lemma str_length_mac_text (a b c d e f : byte) :
  String.length
    (str_init (str_join (map format_02x_colon [a; b; c; d; e; f]))) = 17.
Proof. reflexivity. Qed.

(** X1: what [get_interface_MAC] prints, [string_mac_to_packed] reads
    back.  When the interface name is ASCII and the ioctl replies with
    [info], the function returns a text and changes no state; if the reply
    is longer than 18 bytes the text converts back to exactly bytes 18-24
    of the reply, and it is 17 characters long when the reply has at least
    24 bytes; if the reply has 18 bytes or fewer the text is empty and
    converting it raises [ValueError]. *)
Theorem get_interface_MAC_roundtrip (os : OS) (interface : string)
    (st : state) (name info : bytes) :
  encode_ascii interface = Return name ->
  os_ioctl os SIOCGIFHWADDR (struct_pack_s 256 (slice 0 15 name)) = Return info ->
  exists mac : string,
    get_interface_MAC os interface st = (Return mac, st) /\
    (18 < length info ->
       DHCPDiscoverPacket.string_mac_to_packed mac = Return (slice 18 24 info)) /\
    (24 <= length info -> String.length mac = 17) /\
    (length info <= 18 ->
       mac = EmptyString /\
       DHCPDiscoverPacket.string_mac_to_packed mac = Raise ValueError).
Proof.
  intros Hname Hioctl. eexists. split.
  - unfold get_interface_MAC, bind, lift, ret. rewrite Hname, Hioctl. reflexivity.
  - split; [|split].
    + intros Hlen.
      assert (Hne : length (slice 18 24 info) <> 0)
        by (rewrite length_slice; lia).
      destruct (slice 18 24 info) as [|b m]; [done|].
      apply string_mac_to_packed_text.
    + intros Hlen.
      destruct (list_length_6 (slice 18 24 info)) as (a & b & c & d & e & f & ->).
      { rewrite length_slice. lia. }
      apply str_length_mac_text.
    + intros Hlen.
      assert (Hs : slice 18 24 info = []).
      { apply nil_length_inv. rewrite length_slice. lia. }
      rewrite Hs. split; reflexivity.
Qed.

(** The host [os_lan]: eth0 has MAC aa:bb:cc:dd:ee:ff. *)
Lemma get_interface_MAC_roundtrip_witness :
  exists mac : string,
    get_interface_MAC (os_lan []) "eth0" initial = (Return mac, initial) /\
    DHCPDiscoverPacket.string_mac_to_packed mac
      = Return [xaa; xbb; xcc; xdd; xee; xff].
Proof.
  destruct (get_interface_MAC_roundtrip (os_lan []) "eth0" initial
              [x65; x74; x68; x30]
              (replicate 18 x00 ++ [xaa; xbb; xcc; xdd; xee; xff]
                 ++ replicate 232 x00) eq_refl eq_refl)
    as (mac & Hrun & Hback & _).
  exists mac. split; [exact Hrun|].
  apply Hback. vm_compute. lia.
Defined.

(** X4: [get_interface_IP] reads the address at bytes 20-24 of a reply of
    exactly 32 bytes and returns its dotted-decimal text; a reply of any
    other length raises [struct.error].  Neither case changes the state. *)
Theorem get_interface_IP_reply (os : OS) (interface : string) (st : state)
    (name info : bytes) :
  encode_ascii interface = Return name ->
  os_ioctl os SIOCGIFADDR
    (struct_pack_s 16 (slice 0 15 name) ++ AF_INET_H
       ++ struct_pack_s 14 (replicate 14 x00)) = Return info ->
  (length info = 32 ->
     exists a b c d,
       slice 20 24 info = [a; b; c; d] /\
       get_interface_IP os interface st =
         (Return (decimal a +:+ "." +:+ decimal b +:+ "." +:+ decimal c
                    +:+ "." +:+ decimal d), st)) /\
  (length info <> 32 ->
     get_interface_IP os interface st = (Raise struct_error, st)).
Proof.
  intros Hname Hioctl. split; intros Hlen.
  - destruct (list_length_4 (slice 20 24 info)) as (a & b & c & d & Hs).
    { rewrite length_slice. lia. }
    exists a, b, c, d. split; [done|].
    unfold get_interface_IP, bind, lift, unpack_ifreq_addr.
    rewrite Hname, Hioctl. rewrite decide_True by done. by rewrite Hs.
  - unfold get_interface_IP, bind, lift, unpack_ifreq_addr.
    rewrite Hname, Hioctl. by rewrite decide_False by done.
Qed.

(** The host [os_lan]: eth0 has address 10.0.0.5. *)
Lemma get_interface_IP_reply_witness :
  get_interface_IP (os_lan []) "eth0" initial = (Return "10.0.0.5", initial).
Proof.
  destruct (proj1 (get_interface_IP_reply (os_lan []) "eth0" initial
                     [x65; x74; x68; x30]
                     (replicate 20 x00 ++ [x0a; x00; x00; x05]
                        ++ replicate 8 x00) eq_refl eq_refl) eq_refl)
    as (a & b & c & d & Hs & Hrun).
  injection Hs as <- <- <- <-. exact Hrun.
Defined.

Lemma encode_ascii_Return (s : string) (name : bytes) :
  encode_ascii s = Return name ->
  name = map byte_of_ascii (list_ascii_of_string s).
Proof. unfold encode_ascii. destruct (forallb _ _); congruence. Qed.

Lemma encode_ascii_Raise (s : string) (e : exception) :
  encode_ascii s = Raise e -> e = UnicodeEncodeError.
Proof. unfold encode_ascii. destruct (forallb _ _); congruence. Qed.

(** X5: only the first 15 bytes of the interface name reach the system.
    Two ASCII names that agree on their first 15 characters get the same
    answers from both queries, and the whole probe behaves the same for
    both. *)
Theorem interface_name_truncated (os : OS) (fuel : nat) (i1 i2 : string)
    (n1 n2 : bytes) (st : state) :
  encode_ascii i1 = Return n1 ->
  encode_ascii i2 = Return n2 ->
  take 15 (list_ascii_of_string i1) = take 15 (list_ascii_of_string i2) ->
  get_interface_MAC os i1 st = get_interface_MAC os i2 st /\
  get_interface_IP os i1 st = get_interface_IP os i2 st /\
  probe_dhcp os fuel i1 st = probe_dhcp os fuel i2 st.
Proof.
  intros H1 H2 Htake.
  assert (Hs : slice 0 15 n1 = slice 0 15 n2).
  { rewrite (encode_ascii_Return _ _ H1), (encode_ascii_Return _ _ H2).
    unfold slice. rewrite !drop_0. change (15 - 0) with 15.
    by rewrite !firstn_map, Htake. }
  assert (Hmac : get_interface_MAC os i1 st = get_interface_MAC os i2 st).
  { unfold get_interface_MAC, bind, lift. by rewrite H1, H2, Hs. }
  assert (Hip : get_interface_IP os i1 st = get_interface_IP os i2 st).
  { unfold get_interface_IP, bind, lift. by rewrite H1, H2, Hs. }
  split; [done|]. split; [done|].
  unfold probe_dhcp, request_dhcp, bind. rewrite Hmac.
  destruct (get_interface_MAC os i2 st) as [[mac|e] st1]; [|done].
  assert (Hip1 : get_interface_IP os i1 st1 = get_interface_IP os i2 st1).
  { unfold get_interface_IP, bind, lift. by rewrite H1, H2, Hs. }
  by rewrite Hip1.
Qed.

(** A sixteen-character name and its first fifteen characters. *)
Lemma interface_name_truncated_witness :
  probe_dhcp (os_lan []) 1 "verylongname0123" initial
  = probe_dhcp (os_lan []) 1 "verylongname012" initial.
Proof.
  apply (interface_name_truncated (os_lan []) 1 "verylongname0123"
           "verylongname012" _ _ initial eq_refl eq_refl eq_refl).
Defined.

(** X6: both interface queries encode the whole name before they
    truncate it.  Given a socket, a name with a character outside ASCII
    at any position, even past the fifteenth, makes [get_interface_MAC]
    and [get_interface_IP] raise [UnicodeEncodeError]; the outcome is the
    same on every host, so no ioctl is consulted, and the state is left
    as it is. *)
Theorem non_ascii_interface_rejected (os : OS) (interface : string)
    (st : state) (c : ascii) :
  c ∈ list_ascii_of_string interface ->
  (128 <= N_of_ascii c)%N ->
  get_interface_MAC os interface st = (Raise UnicodeEncodeError, st) /\
  get_interface_IP os interface st = (Raise UnicodeEncodeError, st).
Proof.
  intros Hc Hbig.
  assert (Henc : encode_ascii interface = Raise UnicodeEncodeError).
  { unfold encode_ascii.
    destruct (forallb _ (list_ascii_of_string interface)) eqn:Hall; [|done].
    rewrite forallb_forall in Hall.
    specialize (Hall c (proj1 (list_elem_of_In _ _) Hc)).
    apply N.ltb_lt in Hall. lia. }
  split.
  - unfold get_interface_MAC, bind, lift. by rewrite Henc.
  - unfold get_interface_IP, bind, lift. by rewrite Henc.
Qed.

(** A name whose seventeenth character is code point 233, on a host
    whose ioctl would have answered. *)
Lemma non_ascii_interface_rejected_witness :
  get_interface_MAC (os_lan [])
    (String.append "verylongname0123" (String (ascii_of_N 233) "")) initial
    = (Raise UnicodeEncodeError, initial) /\
  get_interface_IP (os_lan [])
    (String.append "verylongname0123" (String (ascii_of_N 233) "")) initial
    = (Raise UnicodeEncodeError, initial).
Proof.
  apply (non_ascii_interface_rejected (os_lan [])
           (String.append "verylongname0123" (String (ascii_of_N 233) ""))
           initial (ascii_of_N 233)
           ltac:(vm_compute; repeat constructor)
           ltac:(vm_compute; discriminate)).
Defined.

(** ** The request phase *)

Lemma make_transaction_ID_effects (os : OS) (st : state) :
  match make_transaction_ID os st with
  | (Return t, st') =>
      st' = after_draws 4 st /\
      exists t0 t1 t2 t3,
        t = [t0; t1; t2; t3] /\
        map byte_value t = map (fun i => os_randint os (drawn st + i)) [0; 1; 2; 3]
  | (Raise e, st') =>
      e = struct_error /\ sent st' = sent st /\ received st' = received st /\
      exists i, i < 4 /\
        ~ (0 <= os_randint os (drawn st + i) <= 255)%Z
  end.
Proof.
  assert (Hpack : forall n,
    (exists b, struct_pack_B n = Return [b] /\ byte_value b = n) \/
    (struct_pack_B n = Raise struct_error /\ ~ (0 <= n <= 255)%Z)).
  { intros n. destruct (decide (0 <= n <= 255)%Z) as [Hn|Hn].
    - left. by apply struct_pack_B_in_range.
    - right. split; [|done]. unfold struct_pack_B.
      destruct ((0 <=? n)%Z && (n <=? 255)%Z) eqn:Hr; [|done].
      apply andb_true_iff in Hr as [?%Z.leb_le ?%Z.leb_le]. lia. }
  assert (Hbad : forall k, k < 4 ->
    ~ (0 <= os_randint os (drawn st + k) <= 255)%Z ->
    exists i, i < 4 /\ ~ (0 <= os_randint os (drawn st + i) <= 255)%Z)
    by (intros k Hk Hn; by exists k).
  unfold make_transaction_ID, make_transaction_ID_loop, bind, lift, ret,
    randint_0_255. cbn [drawn sent received].
  destruct (Hpack (os_randint os (drawn st))) as [(b0 & -> & H0)|[-> H0]].
  2: { repeat split; try done. apply (Hbad 0); [lia|].
       by replace (drawn st + 0) with (drawn st) by lia. }
  destruct (Hpack (os_randint os (S (drawn st)))) as [(b1 & -> & H1)|[-> H1]].
  2: { repeat split; try done. apply (Hbad 1); [lia|].
       by replace (drawn st + 1) with (S (drawn st)) by lia. }
  destruct (Hpack (os_randint os (S (S (drawn st)))))
    as [(b2 & -> & H2)|[-> H2]].
  2: { repeat split; try done. apply (Hbad 2); [lia|].
       by replace (drawn st + 2) with (S (S (drawn st))) by lia. }
  destruct (Hpack (os_randint os (S (S (S (drawn st))))))
    as [(b3 & -> & H3)|[-> H3]].
  2: { repeat split; try done. apply (Hbad 3); [lia|].
       by replace (drawn st + 3) with (S (S (S (drawn st)))) by lia. }
  split.
  - unfold after_draws. f_equal. lia.
  - exists b0, b1, b2, b3. split; [done|]. simpl.
    rewrite H0, H1, H2, H3. repeat f_equal; lia.
Qed.

(** X14: the transaction ID is the four drawn values, in the order drawn,
    and producing it consumes exactly four draws and touches nothing else;
    the generator fails, with [struct.error], only if one of those four
    draws lies outside 0-255. *)
Theorem make_transaction_ID_draws (os : OS) (st : state) :
  ((forall i, i < 4 -> (0 <= os_randint os (drawn st + i) <= 255)%Z) ->
   exists t,
     make_transaction_ID os st = (Return t, after_draws 4 st) /\
     map byte_value t = map (fun i => os_randint os (drawn st + i)) [0; 1; 2; 3]) /\
  (forall e st',
     make_transaction_ID os st = (Raise e, st') ->
     e = struct_error /\
     exists i, i < 4 /\ ~ (0 <= os_randint os (drawn st + i) <= 255)%Z).
Proof.
  pose proof (make_transaction_ID_effects os st) as H. split.
  - intros Hr.
    destruct (make_transaction_ID os st) as [[t|e] st'].
    + destruct H as (-> & _ & _ & _ & _ & _ & Ht). by exists t.
    + destruct H as (_ & _ & _ & i & Hi & Hbad). by specialize (Hr i Hi).
  - intros e st' Heq. rewrite Heq in H.
    destruct H as (-> & _ & _ & Hi). done.
Qed.

(** Draws 0, 1, 2, 3 give the transaction ID 00 01 02 03. *)
Lemma make_transaction_ID_draws_witness :
  exists t,
    make_transaction_ID os_counting initial = (Return t, after_draws 4 initial) /\
    map byte_value t = [0; 1; 2; 3]%Z.
Proof.
  apply (proj1 (make_transaction_ID_draws os_counting initial)).
  intros i Hi. unfold os_counting. cbn [os_randint].
  pose proof (Z.mod_pos_bound (Z.of_nat (drawn initial + i)) 256). lia.
Defined.

Lemma slice_build_transaction_ID (t m : bytes) :
  length t = 4 -> slice 4 8 (DHCPDiscoverPacket._build t m) = t.
Proof.
  intros Ht. destruct (list_length_4 t Ht) as (t0 & t1 & t2 & t3 & ->).
  reflexivity.
Qed.

(** The request phase on a host where everything succeeds. *)
Lemma request_dhcp_run (os : OS) (interface : string) (st : state)
    (t m ip : bytes) (addr : string) :
  resolves os interface m ip ->
  inet_ntoa ip = Return addr ->
  map (fun i => os_randint os (drawn st + i)) [0; 1; 2; 3] = map byte_value t ->
  os_bind os (addr, BOOTP_CLIENT_PORT) = Return tt ->
  os_sendto os (DHCPDiscoverPacket._build t m)
    ("<broadcast>"%string, BOOTP_SERVER_PORT) = Return tt ->
  request_dhcp os interface st =
    (Return t,
     after_send (DHCPDiscoverPacket._build t m)
       ("<broadcast>"%string, BOOTP_SERVER_PORT) (after_draws 4 st)).
Proof.
  intros (name & info_hw & info_ip & Hname & Hhw & Hm & Hne & Hip & Hlen & Haddr)
    Hntoa Hdraws Hbind Hsend.
  assert (Ht : length t = 4).
  { apply (f_equal length) in Hdraws. by rewrite !length_map in Hdraws. }
  destruct (list_length_4 t Ht) as (t0 & t1 & t2 & t3 & ->).
  assert (Hmac : DHCPDiscoverPacket.string_mac_to_packed
            (str_init (str_join (map format_02x_colon (slice 18 24 info_hw))))
          = Return m).
  { rewrite Hm. destruct m as [|b m]; [done|]. apply string_mac_to_packed_text. }
  unfold request_dhcp, get_interface_MAC, get_interface_IP,
    DHCPDiscoverPacket.__init__, unpack_ifreq_addr, sock_bind, sock_sendto,
    bind, lift, ret.
  rewrite Hname, Hhw, Hip. rewrite decide_True by done.
  rewrite Haddr, Hntoa.
  rewrite (make_transaction_ID_bytes os st t0 t1 t2 t3 Hdraws), Hmac.
  cbn [DHCPDiscoverPacket.packet DHCPDiscoverPacket.transaction_ID].
  by rewrite Hbind, Hsend.
Qed.

(** X7: on a host where the interface resolves to MAC [m] and address
    [ip], the draws are the bytes of [t], and bind and send succeed, the
    request phase sends exactly one datagram, the DISCOVER built from [t]
    and [m], to the broadcast address on port 67, after binding to the
    interface address on port 68, and returns [t]; it reads nothing. *)
Theorem request_dhcp_sends_one_discover (os : OS) (interface : string)
    (st : state) (t m ip : bytes) (addr : string) :
  resolves os interface m ip ->
  inet_ntoa ip = Return addr ->
  map (fun i => os_randint os (drawn st + i)) [0; 1; 2; 3] = map byte_value t ->
  os_bind os (addr, 68%Z) = Return tt ->
  os_sendto os (DHCPDiscoverPacket._build t m) ("<broadcast>"%string, 67%Z)
    = Return tt ->
  exists st',
    request_dhcp os interface st = (Return t, st') /\
    sent st' = sent st ++
      [(DHCPDiscoverPacket._build t m, ("<broadcast>"%string, 67%Z))] /\
    drawn st' = drawn st + 4 /\
    received st' = received st.
Proof.
  intros Hres Hntoa Hdraws Hbind Hsend.
  eexists. split; [by eapply request_dhcp_run|]. done.
Qed.

Lemma os_lan_resolves (ds : list bytes) :
  resolves (os_lan ds) "eth0" [xaa; xbb; xcc; xdd; xee; xff] [x0a; x00; x00; x05].
Proof.
  exists [x65; x74; x68; x30],
    (replicate 18 x00 ++ [xaa; xbb; xcc; xdd; xee; xff] ++ replicate 232 x00),
    (replicate 20 x00 ++ [x0a; x00; x00; x05] ++ replicate 8 x00).
  repeat split; done.
Defined.

(** The request phase on [os_lan]. *)
Lemma request_dhcp_sends_one_discover_witness :
  exists st',
    request_dhcp (os_lan []) "eth0" initial = (Return [x00; x01; x02; x03], st') /\
    sent st' = sent initial ++
      [(DHCPDiscoverPacket._build [x00; x01; x02; x03]
          [xaa; xbb; xcc; xdd; xee; xff], ("<broadcast>"%string, 67%Z))] /\
    drawn st' = drawn initial + 4 /\
    received st' = received initial.
Proof.
  apply (request_dhcp_sends_one_discover (os_lan []) "eth0" initial
           [x00; x01; x02; x03] [xaa; xbb; xcc; xdd; xee; xff]
           [x0a; x00; x00; x05] "10.0.0.5" (os_lan_resolves [])
           eq_refl eq_refl eq_refl eq_refl).
Defined.

(** X8: whatever the host does, the request phase sends at most one
    datagram and reads nothing.  When it returns a transaction ID, that ID
    has four bytes, exactly four draws were consumed, and exactly one
    datagram went out, to the broadcast address on port 67, carrying the
    returned ID at bytes 4-8.  When it raises, nothing was sent. *)
Theorem request_dhcp_effects (os : OS) (interface : string) (st : state) :
  match request_dhcp os interface st with
  | (Return t, st') =>
      length t = 4 /\
      exists packet,
        st' = after_send packet ("<broadcast>"%string, 67%Z) (after_draws 4 st) /\
        slice 4 8 packet = t
  | (Raise e, st') => sent st' = sent st /\ received st' = received st
  end.
Proof.
  unfold request_dhcp, get_interface_MAC, get_interface_IP,
    DHCPDiscoverPacket.__init__, unpack_ifreq_addr, sock_bind, sock_sendto,
    bind, lift, ret.
  destruct (encode_ascii interface) as [name|e1]; [|done].
  destruct (os_ioctl os SIOCGIFHWADDR _) as [info_hw|e2]; [|done].
  destruct (os_ioctl os SIOCGIFADDR _) as [info_ip|e3]; [|done].
  destruct (decide (length info_ip = 32)); [|done].
  destruct (inet_ntoa (slice 20 24 info_ip)) as [addr|e4]; [|done].
  pose proof (make_transaction_ID_effects os st) as Hid.
  destruct (make_transaction_ID os st) as [[t|e5] st1].
  - destruct Hid as (-> & t0 & t1 & t2 & t3 & -> & _).
    destruct (DHCPDiscoverPacket.string_mac_to_packed _) as [m|e6]; [|done].
    cbn [DHCPDiscoverPacket.packet DHCPDiscoverPacket.transaction_ID].
    destruct (os_bind os _) as [[]|e7]; [|done].
    destruct (os_sendto os _ _) as [[]|e8]; [|done].
    split; [done|]. eexists. split; [reflexivity|].
    by apply slice_build_transaction_ID.
  - by destruct Hid as (_ & ? & ? & _).
Qed.

(** X18: when the interface cannot be resolved, the probe stops there:
    if the hardware-address query raises, or it replies and the address
    query raises, the probe raises that same exception with the state
    untouched: no transaction ID is drawn, nothing is sent, and the
    listening phase is never entered. *)
Theorem resolution_failure_stops_probe (os : OS) (fuel : nat)
    (interface : string) (st : state) (name : bytes) (e : exception) :
  encode_ascii interface = Return name ->
  os_ioctl os SIOCGIFHWADDR (struct_pack_s 256 (slice 0 15 name)) = Raise e \/
  ((exists info,
      os_ioctl os SIOCGIFHWADDR (struct_pack_s 256 (slice 0 15 name))
        = Return info) /\
   os_ioctl os SIOCGIFADDR
     (struct_pack_s 16 (slice 0 15 name) ++ AF_INET_H
        ++ struct_pack_s 14 (replicate 14 x00)) = Raise e) ->
  request_dhcp os interface st = (Raise e, st) /\
  probe_dhcp os fuel interface st = Some (Raise e, st).
Proof.
  intros Hname Hfail.
  assert (Hreq : request_dhcp os interface st = (Raise e, st)).
  { unfold request_dhcp, get_interface_MAC, get_interface_IP, bind, lift, ret.
    rewrite Hname.
    destruct Hfail as [-> | [[info ->] ->]]; done. }
  split; [done|]. unfold probe_dhcp. by rewrite Hreq.
Qed.

(** An interface without address: the address query fails with
    EADDRNOTAVAIL after the hardware-address query has replied. *)
Lemma resolution_failure_stops_probe_witness :
  probe_dhcp
    {| os_randint := fun _ => 0%Z;
       os_ioctl := fun request _ =>
         if (request =? SIOCGIFHWADDR)%Z then Return (replicate 256 x00)
         else Raise (OSError (Some EADDRNOTAVAIL));
       os_bind := fun _ => Return tt;
       os_sendto := fun _ _ => Return tt;
       os_recv := fun _ => Raise socket_timeout |}
    7 "eth0" initial
  = Some (Raise (OSError (Some EADDRNOTAVAIL)), initial).
Proof.
  refine (proj2 (resolution_failure_stops_probe _ 7 "eth0" initial
                   [x65; x74; x68; x30] (OSError (Some EADDRNOTAVAIL))
                   eq_refl _)).
  right. split; [by eexists | reflexivity].
Defined.

(** ** The DISCOVER datagram for a MAC of any length *)

Lemma build_split (t0 t1 t2 t3 : byte) (m : bytes) :
  DHCPDiscoverPacket._build [t0; t1; t2; t3] m =
  ([x01; x01; x06; x00; t0; t1; t2; t3; x00; x00; x80; x00]
     ++ replicate 16 x00)
  ++ m
  ++ (replicate 202 x00 ++ [x63; x82; x53; x63; x35; x01; x01; x3d; x06])
  ++ m
  ++ [x37; x03; x03; x01; x06; xff].
Proof. reflexivity. Qed.

Lemma slice_app_skip {A} (i j : nat) (l k : list A) :
  slice (length l + i) (length l + j) (l ++ k) = slice i j k.
Proof.
  unfold slice. rewrite <- drop_drop, drop_app_length. f_equal. lia.
Qed.

Lemma slice_app_here {A} (l k : list A) :
  slice 0 (length l) (l ++ k) = l.
Proof. unfold slice. rewrite drop_0, Nat.sub_0_r. apply take_app_length. Qed.

(** X15: the MAC length is not checked when the datagram is built.  For
    a 4-byte transaction ID and a MAC of any length n, the datagram has
    245 + 2n bytes; the MAC sits at offset 28 and again after the
    client-identifier header, which is at offset 237 + n and always
    declares the length 6, whatever n is; and the End option ff is the
    last byte. *)
Theorem discover_mac_length_unchecked (t m : bytes) :
  length t = 4 ->
  let p := DHCPDiscoverPacket._build t m in
  let n := length m in
  length p = 245 + 2 * n /\
  slice 4 8 p = t /\
  slice 28 (28 + n) p = m /\
  slice (237 + n) (239 + n) p = [x3d; x06] /\
  slice (239 + n) (239 + n + n) p = m /\
  p !! (244 + 2 * n) = Some xff.
Proof.
  intros Ht. cbv zeta.
  split; [rewrite length_build; lia|].
  split; [by apply slice_build_transaction_ID|].
  destruct (list_length_4 t Ht) as (t0 & t1 & t2 & t3 & ->).
  rewrite build_split.
  set (A := [x01; x01; x06; x00; t0; t1; t2; t3; x00; x00; x80; x00]
              ++ replicate 16 x00).
  set (B := replicate 202 x00 ++ [x63; x82; x53; x63; x35; x01; x01; x3d; x06]).
  set (C := [x37; x03; x03; x01; x06; xff]).
  assert (HA : length A = 28) by reflexivity.
  assert (HB : length B = 211) by reflexivity.
  split; [|split; [|split]].
  - rewrite <- HA, <- (Nat.add_0_r (length A)) at 1.
    rewrite slice_app_skip. apply slice_app_here.
  - replace (237 + length m) with (length A + (length m + 209)) by lia.
    replace (239 + length m) with (length A + (length m + 211)) by lia.
    rewrite slice_app_skip, slice_app_skip.
    subst B. reflexivity.
  - replace (239 + length m) with (length A + (length m + (length B + 0))) by lia.
    replace (length A + (length m + (length B + 0)) + length m)
      with (length A + (length m + (length B + length m))) by lia.
    rewrite !slice_app_skip. apply slice_app_here.
  - replace (244 + 2 * length m)
      with (length A + (length m + (length B + (length m + 5)))) by lia.
    rewrite !lookup_app_r by lia.
    replace (length A + (length m + (length B + (length m + 5))) - length A
             - length m - length B - length m) with 5 by lia.
    reflexivity.
Qed.

(** A two-octet MAC: 249 bytes, and the option still says length 6. *)
Lemma discover_mac_length_unchecked_witness :
  let p := DHCPDiscoverPacket._build [x00; x01; x02; x03] [xaa; xbb] in
  length p = 249 /\ slice 239 241 p = [x3d; x06] /\ slice 241 243 p = [xaa; xbb].
Proof.
  destruct (discover_mac_length_unchecked [x00; x01; x02; x03] [xaa; xbb]
              eq_refl) as (Hlen & _ & _ & Hopt & Hmac & _).
  cbv zeta. split; [exact Hlen|]. split; [exact Hopt | exact Hmac].
Defined.

(** ** Failures while listening *)

Lemma receive_offers_loop_short (os : OS) (t : bytes) (ds : list bytes)
    (d : bytes) :
  forall (st : state) (servers : gset string) (fuel : nat),
    delivers os st (ds ++ [d]) ->
    Forall (fun d => 249 <= length d) ds ->
    length d < 249 ->
    length ds < fuel ->
    receive_offers_loop os fuel t servers st =
      Some (offers t ds ∪ servers, OSError None, after_recv (S (length ds)) st).
Proof.
  induction ds as [|d' ds IH]; intros st servers fuel Hdel Hlong Hshort Hfuel;
    (destruct fuel as [|fuel]; [simpl in Hfuel; lia|]); simpl.
  - apply delivers_cons in Hdel as [Hd _].
    rewrite (receive_offers_body_short _ _ _ _ _ Hd Hshort).
    unfold offers. simpl. by rewrite (left_id_L ∅ (∪)).
  - apply delivers_cons in Hdel as [Hd Hdel].
    apply Forall_cons in Hlong as [Hl Hlong].
    rewrite (receive_offers_body_datagram _ _ _ _ _ Hd Hl).
    rewrite (IH (after_recv 1 st)); try done.
    + rewrite after_recv_after_recv. do 3 f_equal.
      unfold offers. simpl.
      by rewrite (assoc_L (∪)), (comm_L (∪) (⋃ _) (offered t d')).
    + simpl in Hfuel. lia.
Qed.

(** X10: an exception raised by a read that is not of class
    [socket.timeout] (so neither the socket module's timeout nor an
    [OSError] with errno ETIMEDOUT) ends the listening phase with that
    exception, and the servers collected from the datagrams read before it
    are not returned.  An exception raised when binding the listening
    socket ends the phase before any read. *)
Theorem receive_offers_read_error (os : OS) (t : bytes) (st : state)
    (ds : list bytes) (e : exception) (fuel : nat) :
  (os_bind os (EmptyString, 68%Z) = Return tt ->
   delivers os st ds ->
   Forall (fun d => 249 <= length d) ds ->
   os_recv os (received st + length ds) = Raise e ->
   is_socket_timeout e = false ->
   length ds < fuel ->
   receive_offers os fuel t st =
     Some (Raise e, after_recv (S (length ds)) st)) /\
  (os_bind os (EmptyString, 68%Z) = Raise e ->
   receive_offers os fuel t st = Some (Raise e, st)).
Proof.
  split.
  - intros Hbind Hdel Hlong Hend Hne Hfuel.
    by apply receive_offers_run_error.
  - intros Hbind. unfold receive_offers, sock_bind, lift.
    change BOOTP_CLIENT_PORT with 68%Z. by rewrite Hbind.
Qed.

(** Four datagrams, then a read refused with EACCES. *)
Lemma receive_offers_read_error_witness :
  receive_offers (os_lan_then four_offers (OSError (Some EACCES)))
    5 [x01; x02; x03; x04] initial
  = Some (Raise (OSError (Some EACCES)), after_recv 5 initial).
Proof.
  refine (proj1 (receive_offers_read_error
                   (os_lan_then four_offers (OSError (Some EACCES)))
                   [x01; x02; x03; x04] initial
                   four_offers (OSError (Some EACCES)) 5)
            eq_refl _ _ eq_refl _ _).
  - intros i d Hi. cbn [os_lan_then os_recv initial received Nat.add].
    by rewrite Hi.
  - repeat constructor; vm_compute; lia.
  - reflexivity.
  - simpl. lia.
Defined.

(** X11: one undersized datagram aborts the probe.  If, after any number
    of datagrams of at least 249 bytes, a datagram shorter than 249 bytes
    arrives, the listening phase ends at that read with [OSError] (errno
    [None]), whatever the transaction ID of that datagram and whatever
    was collected before; and [probe_interface] raises that error. *)
Theorem short_datagram_aborts_probe (os : OS) (fuel : nat)
    (interface : string) (st st1 : state) (t : bytes) (ds : list bytes)
    (d : bytes) :
  request_dhcp os interface st = (Return t, st1) ->
  os_bind os (EmptyString, 68%Z) = Return tt ->
  delivers os st1 (ds ++ [d]) ->
  Forall (fun d => 249 <= length d) ds ->
  length d < 249 ->
  length ds < fuel ->
  receive_offers os fuel t st1 =
    Some (Raise (OSError None), after_recv (S (length ds)) st1) /\
  probe_interface os fuel interface st =
    Some (Raise (OSError None), [], after_recv (S (length ds)) st1).
Proof.
  intros Hreq Hbind Hdel Hlong Hshort Hfuel.
  assert (Hrecv : receive_offers os fuel t st1 =
            Some (Raise (OSError None), after_recv (S (length ds)) st1)).
  { unfold receive_offers, sock_bind, lift.
    change BOOTP_CLIENT_PORT with 68%Z. rewrite Hbind.
    by rewrite (receive_offers_loop_short os t ds d). }
  split; [done|].
  unfold probe_interface, probe_dhcp. rewrite Hreq, Hrecv. reflexivity.
Qed.

(** An offer from 10.0.0.1 followed by a 248-byte datagram. *)
Lemma short_datagram_aborts_probe_witness :
  probe_interface
    (os_lan [offer_datagram [x00; x01; x02; x03] [x0a; x00; x00; x01];
             replicate 248 x00])
    3 "eth0" initial
  = Some (Raise (OSError None), [],
          after_recv 2
            (after_send
               (DHCPDiscoverPacket._build [x00; x01; x02; x03]
                  [xaa; xbb; xcc; xdd; xee; xff])
               ("<broadcast>"%string, 67%Z) (after_draws 4 initial))).
Proof.
  refine (proj2 (short_datagram_aborts_probe
                   (os_lan [offer_datagram [x00; x01; x02; x03]
                              [x0a; x00; x00; x01];
                            replicate 248 x00])
                   3 "eth0" initial _ [x00; x01; x02; x03]
                   [offer_datagram [x00; x01; x02; x03] [x0a; x00; x00; x01]]
                   (replicate 248 x00) _ eq_refl _ _ _ _)).
  - vm_compute. reflexivity.
  - intros i d Hi. cbn [app] in Hi.
    cbn [os_lan os_recv after_send after_draws initial received Nat.add].
    by rewrite Hi.
  - repeat constructor; vm_compute; lia.
  - vm_compute. lia.
  - simpl. lia.
Defined.

(** X12: [probe_interface] absorbs the two errnos wherever they arise,
    not only during interface resolution.  If a read fails with errno
    EADDRNOTAVAIL or ENODEV after the DISCOVER was sent and offers were
    received, the result is the empty set: the servers already collected
    are dropped, and only the log record tells the cases apart. *)
Theorem probe_interface_drops_partial_result (os : OS) (fuel : nat)
    (interface : string) (st st1 : state) (t : bytes) (ds : list bytes)
    (errno : Z) :
  request_dhcp os interface st = (Return t, st1) ->
  os_bind os (EmptyString, 68%Z) = Return tt ->
  delivers os st1 ds ->
  Forall (fun d => 249 <= length d) ds ->
  os_recv os (received st1 + length ds) = Raise (OSError (Some errno)) ->
  length ds < fuel ->
  (errno = EADDRNOTAVAIL ->
   probe_interface os fuel interface st =
     Some (Return ∅, [log_debug interface], after_recv (S (length ds)) st1)) /\
  (errno = ENODEV ->
   probe_interface os fuel interface st =
     Some (Return ∅, [log_error interface], after_recv (S (length ds)) st1)).
Proof.
  intros Hreq Hbind Hdel Hlong Hend Hfuel.
  assert (Hrecv : is_socket_timeout (OSError (Some errno)) = false ->
            receive_offers os fuel t st1 =
            Some (Raise (OSError (Some errno)), after_recv (S (length ds)) st1)).
  { intros He. by apply receive_offers_run_error. }
  unfold probe_interface, probe_dhcp. rewrite Hreq.
  split; intros ->; rewrite Hrecv; reflexivity.
Qed.

(** Two servers answer, then a read fails with ENODEV: nothing is
    reported. *)
Lemma probe_interface_drops_partial_result_witness :
  exists st',
    probe_interface
      (os_lan_then
         [offer_datagram [x00; x01; x02; x03] [x0a; x00; x00; x01];
          offer_datagram [x00; x01; x02; x03] [x0a; x00; x00; x02]]
         (OSError (Some ENODEV)))
      3 "eth0" initial
    = Some (Return ∅, [log_error "eth0"], st').
Proof.
  eexists.
  refine (proj2 (probe_interface_drops_partial_result
                   (os_lan_then
                      [offer_datagram [x00; x01; x02; x03] [x0a; x00; x00; x01];
                       offer_datagram [x00; x01; x02; x03] [x0a; x00; x00; x02]]
                      (OSError (Some ENODEV)))
                   3 "eth0" initial _
                   [x00; x01; x02; x03]
                   [offer_datagram [x00; x01; x02; x03] [x0a; x00; x00; x01];
                    offer_datagram [x00; x01; x02; x03] [x0a; x00; x00; x02]]
                   ENODEV _ eq_refl _ _ _ _) eq_refl).
  - vm_compute. reflexivity.
  - intros i d Hi.
    cbn [os_lan_then os_recv after_send after_draws initial received Nat.add].
    by rewrite Hi.
  - repeat constructor; vm_compute; lia.
  - reflexivity.
  - simpl. lia.
Defined.

(** ** The whole probe *)

(** X9: the two phases compose on the transaction ID.  On a host where
    the interface resolves, the draws are the bytes of [t], binding and
    sending succeed, and the datagrams [ds] (each of at least 249 bytes)
    arrive before a read times out, [probe_interface] returns exactly the
    servers that [ds] offers for [t], logs nothing, and has sent one
    DISCOVER carrying [t]. *)
Theorem probe_interface_end_to_end (os : OS) (fuel : nat) (interface : string)
    (st : state) (t m ip : bytes) (addr : string) (ds : list bytes) :
  resolves os interface m ip ->
  inet_ntoa ip = Return addr ->
  map (fun i => os_randint os (drawn st + i)) [0; 1; 2; 3] = map byte_value t ->
  os_bind os (addr, 68%Z) = Return tt ->
  os_sendto os (DHCPDiscoverPacket._build t m) ("<broadcast>"%string, 67%Z)
    = Return tt ->
  os_bind os (EmptyString, 68%Z) = Return tt ->
  delivers os st ds ->
  Forall (fun d => 249 <= length d) ds ->
  os_recv os (received st + length ds) = Raise socket_timeout ->
  length ds < fuel ->
  probe_interface os fuel interface st =
    Some (Return (offers t ds), [],
          after_recv (S (length ds))
            (after_send (DHCPDiscoverPacket._build t m)
               ("<broadcast>"%string, 67%Z) (after_draws 4 st))).
Proof.
  intros Hres Hntoa Hdraws Hbind Hsend Hbind' Hdel Hlong Hend Hfuel.
  unfold probe_interface, probe_dhcp.
  rewrite (request_dhcp_run os interface st t m ip addr) by done.
  change 67%Z with BOOTP_SERVER_PORT.
  by rewrite (receive_offers_run os t _ ds fuel).
Qed.

(** The host [os_lan] with the traffic [four_offers], probed with the
    transaction 00 01 02 03, which none of those datagrams carries. *)
Lemma probe_interface_end_to_end_witness :
  probe_interface (os_lan four_offers) 5 "eth0" initial =
  Some (Return (offers [x00; x01; x02; x03] four_offers), [],
        after_recv 5
          (after_send
             (DHCPDiscoverPacket._build [x00; x01; x02; x03]
                [xaa; xbb; xcc; xdd; xee; xff])
             ("<broadcast>"%string, 67%Z) (after_draws 4 initial))).
Proof.
  apply (probe_interface_end_to_end (os_lan four_offers) 5 "eth0" initial
           [x00; x01; x02; x03] [xaa; xbb; xcc; xdd; xee; xff]
           [x0a; x00; x00; x05] "10.0.0.5" four_offers
           (os_lan_resolves four_offers) eq_refl eq_refl eq_refl eq_refl eq_refl).
  - intros i d Hi. cbn [os_lan os_recv initial received Nat.add]. by rewrite Hi.
  - repeat constructor; vm_compute; lia.
  - reflexivity.
  - simpl. lia.
Defined.

(** X13: [probe_interface] never raises an [OSError] whose errno is
    EADDRNOTAVAIL or ENODEV, on any host.  When it logs nothing, its
    outcome is the probe's own outcome, unchanged.  It logs exactly in
    two cases, one record each: the debug record when the probe raised
    [OSError] with errno EADDRNOTAVAIL, the error record when the probe
    raised [OSError] with errno ENODEV; in both it returns the empty set.
    It ends exactly when the probe ends, in the state the probe reached. *)
Theorem probe_interface_never_raises_absorbed (os : OS) (fuel : nat)
    (interface : string) (st : state) :
  match probe_interface os fuel interface st with
  | None => probe_dhcp os fuel interface st = None
  | Some (r, log, st') =>
      r <> Raise (OSError (Some EADDRNOTAVAIL)) /\
      r <> Raise (OSError (Some ENODEV)) /\
      (log = [] /\ probe_dhcp os fuel interface st = Some (r, st') \/
       log = [log_debug interface] /\ r = Return ∅ /\
         probe_dhcp os fuel interface st
           = Some (Raise (OSError (Some EADDRNOTAVAIL)), st') \/
       log = [log_error interface] /\ r = Return ∅ /\
         probe_dhcp os fuel interface st
           = Some (Raise (OSError (Some ENODEV)), st'))
  end.
Proof.
  unfold probe_interface.
  destruct (probe_dhcp os fuel interface st) as [[[servers|e] st']|]; [| |done].
  - repeat split; try done. by left.
  - destruct e as [[n|]| | | |]; cbn [is_IOError errno_of];
      try (repeat split; try done; by left).
    case_bool_decide as H1.
    { injection H1 as ->. repeat split; try done. right. by left. }
    case_bool_decide as H2.
    { injection H2 as ->. repeat split; try done. right. by right. }
    repeat split; try congruence. by left.
Qed.

(** ** The result as a set *)

(** X16: the result distinguishes servers exactly by their address
    bytes.  Under the conditions of a normal run, the number of servers
    returned equals the number of distinct values of bytes 245-249 among
    the datagrams whose bytes 4-8 equal the transaction ID. *)
Theorem receive_offers_size (os : OS) (t : bytes) (st : state)
    (ds : list bytes) (fuel : nat) :
  os_bind os (EmptyString, 68%Z) = Return tt ->
  delivers os st ds ->
  Forall (fun d => 249 <= length d) ds ->
  os_recv os (received st + length ds) = Raise socket_timeout ->
  length ds < fuel ->
  exists servers : gset string,
    receive_offers os fuel t st =
      Some (Return servers, after_recv (S (length ds)) st) /\
    size servers =
      length (remove_dups
                (slice 245 249 <$> filter (fun d => slice 4 8 d = t) ds)).
Proof.
  intros Hbind Hdel Hlong Hend Hfuel.
  exists (offers t ds). split; [by apply receive_offers_run|].
  set (addrs := slice 245 249 <$> filter (fun d => slice 4 8 d = t) ds).
  set (text := fun a : bytes =>
                 match inet_ntoa a with
                 | Return s => s
                 | Raise _ => EmptyString
                 end).
  assert (Haddr : forall a, a ∈ addrs -> inet_ntoa a = Return (text a)).
  { intros a (d & -> & Hd)%list_elem_of_fmap.
    apply list_elem_of_filter in Hd as [_ Hd].
    rewrite Forall_forall in Hlong.
    destruct (offer_init_long d (Hlong d Hd)) as (a0 & a1 & a2 & a3 & Hs & _).
    unfold text. by rewrite Hs. }
  assert (Hset : offers t ds = list_to_set (text <$> remove_dups addrs)).
  { apply set_eq. intros s.
    rewrite elem_of_offers, elem_of_list_to_set, list_elem_of_fmap. split.
    - intros (d & Hd & Ht & Hs). exists (slice 245 249 d). split.
      + unfold text. by rewrite Hs.
      + apply elem_of_remove_dups, list_elem_of_fmap. exists d.
        split; [done|]. by apply list_elem_of_filter.
    - intros (a & -> & Ha). rewrite elem_of_remove_dups in Ha.
      pose proof (Haddr a Ha) as Htext.
      apply list_elem_of_fmap in Ha as (d & -> & Hd).
      apply list_elem_of_filter in Hd as [Ht Hd].
      by exists d. }
  rewrite Hset, size_list_to_set, length_fmap; [done|].
  apply NoDup_fmap_2_strong; [|apply NoDup_remove_dups].
  intros a a' Ha Ha' Heq. rewrite elem_of_remove_dups in Ha, Ha'.
  apply (inet_ntoa_inj a a' (text a)); [by apply Haddr|].
  rewrite Heq. by apply Haddr.
Qed.

(** Over [four_offers], three datagrams match and carry two addresses. *)
Lemma receive_offers_size_witness :
  exists servers : gset string,
    receive_offers (os_lan four_offers) 5 [x01; x02; x03; x04] initial =
      Some (Return servers, after_recv 5 initial) /\
    size servers = 2.
Proof.
  apply (receive_offers_size (os_lan four_offers) [x01; x02; x03; x04]
           initial four_offers 5 eq_refl).
  - intros i d Hi. cbn [os_lan os_recv initial received Nat.add]. by rewrite Hi.
  - repeat constructor; vm_compute; lia.
  - reflexivity.
  - simpl. lia.
Defined.

(** X17: the result does not depend on the order in which the datagrams
    arrive, nor on repetitions.  Two normal runs for the same transaction
    whose datagrams are the same up to order and multiplicity return the
    same set. *)
Theorem receive_offers_order_independent (os1 os2 : OS) (t : bytes)
    (st1 st2 : state) (ds1 ds2 : list bytes) (fuel1 fuel2 : nat) :
  os_bind os1 (EmptyString, 68%Z) = Return tt ->
  os_bind os2 (EmptyString, 68%Z) = Return tt ->
  delivers os1 st1 ds1 -> delivers os2 st2 ds2 ->
  Forall (fun d => 249 <= length d) ds1 ->
  Forall (fun d => 249 <= length d) ds2 ->
  os_recv os1 (received st1 + length ds1) = Raise socket_timeout ->
  os_recv os2 (received st2 + length ds2) = Raise socket_timeout ->
  length ds1 < fuel1 -> length ds2 < fuel2 ->
  (forall d, d ∈ ds1 <-> d ∈ ds2) ->
  exists servers : gset string,
    receive_offers os1 fuel1 t st1 =
      Some (Return servers, after_recv (S (length ds1)) st1) /\
    receive_offers os2 fuel2 t st2 =
      Some (Return servers, after_recv (S (length ds2)) st2).
Proof.
  intros Hb1 Hb2 Hd1 Hd2 Hl1 Hl2 He1 He2 Hf1 Hf2 Hsame.
  exists (offers t ds1). split; [by apply receive_offers_run|].
  rewrite (receive_offers_run os2 t st2 ds2 fuel2) by done.
  do 3 f_equal. apply set_eq. intros s. rewrite !elem_of_offers.
  split; intros (d & Hd & H); exists d; (split; [by apply Hsame | done]).
Qed.

(** The traffic [four_offers] and the same traffic reversed and without
    its repeated offer. *)
Lemma receive_offers_order_independent_witness :
  exists servers : gset string,
    receive_offers (os_lan four_offers) 5 [x01; x02; x03; x04] initial =
      Some (Return servers, after_recv 5 initial) /\
    receive_offers
      (os_lan [offer_datagram [x01; x02; x03; x04] [x0a; x00; x00; x02];
               offer_datagram [x09; x09; x09; x09] [x0a; x00; x00; x09];
               offer_datagram [x01; x02; x03; x04] [x0a; x00; x00; x01]])
      4 [x01; x02; x03; x04] initial =
      Some (Return servers, after_recv 4 initial).
Proof.
  apply (receive_offers_order_independent
           (os_lan four_offers)
           (os_lan [offer_datagram [x01; x02; x03; x04] [x0a; x00; x00; x02];
                    offer_datagram [x09; x09; x09; x09] [x0a; x00; x00; x09];
                    offer_datagram [x01; x02; x03; x04] [x0a; x00; x00; x01]])
           [x01; x02; x03; x04] initial initial four_offers
           [offer_datagram [x01; x02; x03; x04] [x0a; x00; x00; x02];
            offer_datagram [x09; x09; x09; x09] [x0a; x00; x00; x09];
            offer_datagram [x01; x02; x03; x04] [x0a; x00; x00; x01]]
           5 4 eq_refl eq_refl).
  - intros i d Hi. cbn [os_lan os_recv initial received Nat.add]. by rewrite Hi.
  - intros i d Hi. cbn [os_lan os_recv initial received Nat.add]. by rewrite Hi.
  - repeat constructor; vm_compute; lia.
  - repeat constructor; vm_compute; lia.
  - reflexivity.
  - reflexivity.
  - simpl. lia.
  - simpl. lia.
  - intros d. unfold four_offers. rewrite !elem_of_cons, !elem_of_nil. tauto.
Defined.
